(** * Routing, sticky sessions and bounded retry of the Gemini CLI front ends

    A shallow embedding of the routing code of [src/app.py], [src/main.py]
    and [src/tui.py].  Pure functions are Rocq functions; the coroutines of
    [tui.py], which write to widgets, mutate worker objects and talk to the
    remote service, are written in a small state-and-exception monad over an
    explicit program state.

    Text is [String.string].  The Python string operations used by the code
    ([len], [in], [strip], [upper]) are given for the ASCII range: a
    character above code 127 counts as neither white space nor a cased
    letter. *)

From Stdlib Require Import String Ascii List ZArith Lia Bool Arith.
From stdpp Require Import base list strings.
Import ListNotations.

Local Open Scope string_scope.
Local Open Scope nat_scope.

(** ** Python string primitives *)

Module Py.

(** [len(s)] *)
Definition len (s : string) : nat := String.length s.

(** [c.isspace()] on the ASCII range: TAB, LF, VT, FF, CR, the four
      separators FS, GS, RS, US, and the blank. *)
Definition isspace (c : ascii) : bool :=
    let n := nat_of_ascii c in
    ((9 <=? n) && (n <=? 13)) || ((28 <=? n) && (n <=? 32)).

(** [c.upper()] on the ASCII range. *)
Definition upper_char (c : ascii) : ascii :=
    let n := nat_of_ascii c in
    if (97 <=? n) && (n <=? 122) then ascii_of_nat (n - 32) else c.

(** [s.upper()] *)
Fixpoint upper (s : string) : string :=
    match s with
    | EmptyString => EmptyString
    | String c s' => String (upper_char c) (upper s')
    end.

(** [s.lstrip()] *)
Fixpoint lstrip (s : string) : string :=
    match s with
    | EmptyString => EmptyString
    | String c s' => if isspace c then lstrip s' else s
    end.

(** [s.rstrip()] *)
Fixpoint rstrip (s : string) : string :=
    match s with
    | EmptyString => EmptyString
    | String c s' =>
        match rstrip s' with
        | EmptyString => if isspace c then EmptyString else String c EmptyString
        | r => String c r
        end
    end.

(** [s.strip()] *)
Definition strip (s : string) : string := rstrip (lstrip s).

(** [needle in hay] *)
Fixpoint str_in (needle hay : string) : bool :=
    String.prefix needle hay
    || match hay with
       | EmptyString => false
       | String _ hay' => str_in needle hay'
       end.

(** [s * n] *)
Fixpoint repeat (s : string) (n : nat) : string :=
    match n with
    | O => EmptyString
    | S n' => s +:+ repeat s n'
    end.

(** [not s] for a string: true exactly on the empty string. *)
Definition is_empty (s : string) : bool :=
    match s with EmptyString => true | _ => false end.

End Py.

(** The two capability classes a request can be routed to.  In the source a
    tier is the class of the worker object: [FlashImplementation] is the
    fast tier, [HighReasoningImplementation] the reasoning tier. *)
Inductive Tier := LIGHT | HEAVY.

(** ** [src/app.py]: length heuristic, threshold 100 *)

Module App.
Section WithClient.
Variable Client : Type.

Record AppSettings := {
      heavy_model : string;
      light_model : string
    }.

(** The two implementations of [LLMInterface]; both keep the client and
        the target model id. *)
Inductive LLMInterface :=
    | FlashImplementation (external_client : Client) (model_id : string)
    | HighReasoningImplementation (external_client : Client) (model_id : string).

Definition tier_of (w : LLMInterface) : Tier :=
      match w with
      | FlashImplementation _ _ => LIGHT
      | HighReasoningImplementation _ _ => HEAVY
      end.

Definition route_logic (user_input : string) (client : Client)
        (settings : AppSettings) : LLMInterface * string :=
      if Py.len user_input <? 100 then
        (FlashImplementation client (light_model settings), "Gemini Flash (Fast)")
      else
        (HighReasoningImplementation client (heavy_model settings),
         "Gemini Pro (Reasoning)").
End WithClient.

Arguments tier_of {Client} w.
Arguments route_logic {Client} user_input client settings.
End App.

(** ** [src/main.py]: length heuristic, threshold 20 *)

Module Main.
Section WithClient.
Variable Client : Type.

Record AppSettings := {
      heavy_model : string;
      light_model : string
    }.

Inductive LLMInterface :=
    | FlashImplementation (external_client : Client) (model_name : string)
    | HighReasoningImplementation (external_client : Client) (model_name : string).

Definition tier_of (w : LLMInterface) : Tier :=
      match w with
      | FlashImplementation _ _ => LIGHT
      | HighReasoningImplementation _ _ => HEAVY
      end.

Definition route_logic (client : Client) (settings : AppSettings)
        (user_prompt : string) : LLMInterface * string :=
      if 20 <? Py.len user_prompt then
        (HighReasoningImplementation client (heavy_model settings),
         heavy_model settings)
      else
        (FlashImplementation client (light_model settings),
         light_model settings).
End WithClient.

Arguments tier_of {Client} w.
Arguments route_logic {Client} client settings user_prompt.
End Main.

(** The heuristic tier as the specification words it, with one threshold
    for both programs: LIGHT under 100 characters, HEAVY from 100 on. *)
Definition spec_heuristic_tier (text : string) : Tier :=
  if Py.len text <? 100 then LIGHT else HEAVY.


(** ** [src/tui.py]: delegated classifier, sticky session, retry loop *)

Module Tui.

Record AppSettings := {
  heavy_model : string;
  light_model : string;
  picker_model : string
}.

(** The defaults of the [AppSettings] fields. *)
Definition default_settings : AppSettings :=
  {| heavy_model := "gemini-2.5-flash";
     light_model := "gemini-flash-lite-latest";
     picker_model := "gemini-2.0-flash-lite-preview-02-05" |}.

(** A raised [Exception]: its class name and the text [str(e)]. *)
Record exn := PyExc { exc_class : string; str : string }.

(** Handle of a chat session made by [client.aio.chats.create]. *)
Definition chat := nat.

(** Reference to a worker object in the store. *)
Definition loc := nat.

(** What the remote service does with one [send_message]: it answers with a
    response whose [.text] is a string or [None], or the call raises. *)
Inductive outcome :=
| Reply (text : option string)
| Fail (e : exn).

(** The two classes that implement [LLMInterface]. *)
Inductive impl := FlashImplementation | HighReasoningImplementation.

(** A worker object: its class and its attributes [_model_name] and
    [_chat_session] ([None] until the first [process_task]). *)
Record worker := {
  w_class : impl;
  w_model_name : string;
  w_chat_session : option chat
}.

Definition tier_of (w : worker) : Tier :=
  match w_class w with
  | FlashImplementation => LIGHT
  | HighReasoningImplementation => HEAVY
  end.

(** Calls that leave the process, in the order they are made. *)
Inductive event :=
| EvCreateChat (model : string) (c : chat)
| EvSendMessage (c : chat) (text : string)
| EvSleep (seconds : Z).

(** Lines written to the [RichLog] widget, by the f-string that makes them. *)
Inductive log_entry :=
| LogInit                                   (* App initialized: {now} *)
| LogRouting                                (* Routing... *)
| LogRoutedTo (model_name : string)         (* Routed to: {model_name} *)
| LogRetry (wait_time : Z) (dots : string)  (* Server overloaded. Retrying in {wait_time}s{dots} *)
| LogResult (result : option string)        (* {result} *)
| LogRule                                   (* "-" * 50 *)
| LogError (e : exn)                        (* Error: {e} *)
| LogUser (user_text : string)              (* You: {user_text} *)
| LogReset.                                 (* Session Reset. Memory cleared. *)

(** The program state: the attributes of the [GeminiTui] object, the store
    of worker objects they point into, the widgets, and the outside world
    (chat handles handed out, calls answered so far, calls made).
    [status_background] is the inline rule [styles.background] of the
    status label; the colour of the style sheet is not part of the state. *)
Record state := {
  current_worker : option loc;
  current_model_name : option string;
  heap : list worker;
  chat_log : list log_entry;
  model_status : string;
  status_background : option string;
  user_input : string;
  input_focused : bool;
  next_chat : chat;
  n_sends : nat;
  trace : list event
}.

Definition set_current_worker (v : option loc) (s : state) : state :=
  {| current_worker := v; current_model_name := current_model_name s;
     heap := heap s; chat_log := chat_log s; model_status := model_status s;
     status_background := status_background s; user_input := user_input s;
     input_focused := input_focused s; next_chat := next_chat s;
     n_sends := n_sends s; trace := trace s |}.

Definition set_current_model_name (v : option string) (s : state) : state :=
  {| current_worker := current_worker s; current_model_name := v;
     heap := heap s; chat_log := chat_log s; model_status := model_status s;
     status_background := status_background s; user_input := user_input s;
     input_focused := input_focused s; next_chat := next_chat s;
     n_sends := n_sends s; trace := trace s |}.

Definition set_heap (v : list worker) (s : state) : state :=
  {| current_worker := current_worker s; current_model_name := current_model_name s;
     heap := v; chat_log := chat_log s; model_status := model_status s;
     status_background := status_background s; user_input := user_input s;
     input_focused := input_focused s; next_chat := next_chat s;
     n_sends := n_sends s; trace := trace s |}.

Definition set_chat_log (v : list log_entry) (s : state) : state :=
  {| current_worker := current_worker s; current_model_name := current_model_name s;
     heap := heap s; chat_log := v; model_status := model_status s;
     status_background := status_background s; user_input := user_input s;
     input_focused := input_focused s; next_chat := next_chat s;
     n_sends := n_sends s; trace := trace s |}.

Definition set_status (text : string) (bg : option string) (s : state) : state :=
  {| current_worker := current_worker s; current_model_name := current_model_name s;
     heap := heap s; chat_log := chat_log s; model_status := text;
     status_background := bg; user_input := user_input s;
     input_focused := input_focused s; next_chat := next_chat s;
     n_sends := n_sends s; trace := trace s |}.

Definition set_input (v : string) (focus : bool) (s : state) : state :=
  {| current_worker := current_worker s; current_model_name := current_model_name s;
     heap := heap s; chat_log := chat_log s; model_status := model_status s;
     status_background := status_background s; user_input := v;
     input_focused := focus; next_chat := next_chat s;
     n_sends := n_sends s; trace := trace s |}.

Definition set_world (nc : chat) (ns : nat) (tr : list event) (s : state) : state :=
  {| current_worker := current_worker s; current_model_name := current_model_name s;
     heap := heap s; chat_log := chat_log s; model_status := model_status s;
     status_background := status_background s; user_input := user_input s;
     input_focused := input_focused s; next_chat := nc;
     n_sends := ns; trace := tr |}.

(** *** The monad: state passing with Python exceptions *)

Inductive result (A : Type) :=
| Return (a : A)
| Raise (e : exn).
Arguments Return {A} a.
Arguments Raise {A} e.

Definition M (A : Type) : Type := state -> result A * state.

Definition ret {A} (a : A) : M A := fun s => (Return a, s).

Definition bind {A B} (m : M A) (f : A -> M B) : M B :=
  fun s =>
    match m s with
    | (Return a, s') => f a s'
    | (Raise e, s') => (Raise e, s')
    end.

Definition raise {A} (e : exn) : M A := fun s => (Raise e, s).

(** [try: m  except Exception as e: handler e] *)
Definition try_except {A} (m : M A) (handler : exn -> M A) : M A :=
  fun s =>
    match m s with
    | (Return a, s') => (Return a, s')
    | (Raise e, s') => handler e s'
    end.

(** [try: m  finally: fin] *)
Definition try_finally {A} (m : M A) (fin : M unit) : M A :=
  fun s =>
    match m s with
    | (r, s') =>
        match fin s' with
        | (Return _, s'') => (r, s'')
        | (Raise e, s'') => (Raise e, s'')
        end
    end.

Definition gets {A} (f : state -> A) : M A := fun s => (Return (f s), s).
Definition modify (f : state -> state) : M unit := fun s => (Return tt, f s).

Declare Scope py_scope.
Delimit Scope py_scope with py.
Notation "x <- m ;; k" := (bind m (fun x => k))
  (at level 100, m at next level, k at level 200, right associativity) : py_scope.
Notation "m ;; k" := (bind m (fun _ => k))
  (at level 100, k at level 200, right associativity) : py_scope.
Local Open Scope py_scope.

Definition run {A} (m : M A) (s : state) : result A * state := m s.
Definition exec {A} (m : M A) (s : state) : state := snd (m s).

(** *** Widgets and the outside world *)

(** [log_widget.write(entry)] with a [Text] object, which the widget takes
    as it is. *)
Definition log_write (entry : log_entry) : M unit :=
  modify (fun s => set_chat_log (chat_log s ++ [entry]) s).

(** [log_widget.clear()] *)
Definition log_clear : M unit := modify (set_chat_log []).

(** [await asyncio.sleep(wait_time)] *)
Definition sleep (wait_time : Z) : M unit :=
  modify (fun s => set_world (next_chat s) (n_sends s)
                     (trace s ++ [EvSleep wait_time]) s).

(** [client.aio.chats.create(model=model)]: a local constructor, it hands
    out the next unused handle. *)
Definition chats_create (model : string) : M chat :=
  fun s =>
    let c := next_chat s in
    (Return c, set_world (S c) (n_sends s) (trace s ++ [EvCreateChat model c]) s).

(** [FlashImplementation(client, model)] / [HighReasoningImplementation(client,
    model)]: a new object in the store, [_chat_session = None]. *)
Definition new_worker (cls : impl) (model : string) : M loc :=
  fun s =>
    let l := length (heap s) in
    (Return l,
     set_heap (heap s ++ [{| w_class := cls; w_model_name := model;
                             w_chat_session := None |}]) s).

(** [self._chat_session = c] on the worker object at [l]. *)
Definition set_chat_session (l : loc) (c : chat) : M unit :=
  modify (fun s =>
    match heap s !! l with
    | Some w => set_heap (<[l := {| w_class := w_class w;
                                     w_model_name := w_model_name w;
                                     w_chat_session := Some c |}]> (heap s)) s
    | None => s
    end).

Section WithService.

(** The configuration read at start-up and the behaviour of the remote
    service: [remote n] is what happens to the [n]-th [send_message] of the
    run, whatever chat and text it carries. *)
Variable settings : AppSettings.
Variable remote : nat -> outcome.

(** Rich's tag parser, which is not part of the sources: [markup text] is
    the [MarkupError] it raises on [text], if it raises one. *)
Variable markup : string -> option exn.

(** [Text.from_markup(text)], which the [RichLog] of this application
    ([markup=True]) applies to every [str] it is given: a text without an
    opening bracket is taken as it is, any other goes through the tag
    parser. *)
Definition from_markup (text : string) : option exn :=
  if Py.str_in "[" text then markup text else None.

(** [log_widget.write(text)] with a [str]; [entry] is the line it shows. *)
Definition log_write_str (text : string) (entry : log_entry) : M unit :=
  match from_markup text with
  | None => log_write entry
  | Some e => raise e
  end.

(** [f"{result}"] for a text or [None]. *)
Definition format_result (result : option string) : string :=
  match result with
  | Some text => text
  | None => "None"
  end.

(** The three [str] lines of [process_user_request]. *)
Definition result_line (result : option string) : string :=
  "📢 " +:+ format_result result.
Definition rule_line : string := Py.repeat "-" 50.
Definition error_line (e : exn) : string := "Error: " +:+ str e.

(** [await chat.send_message(text)]; returns [response.text]. *)
Definition send_message (c : chat) (text : string) : M (option string) :=
  fun s =>
    let s' := set_world (next_chat s) (S (n_sends s))
                (trace s ++ [EvSendMessage c text]) s in
    match remote (n_sends s) with
    | Reply t => (Return t, s')
    | Fail e => (Raise e, s')
    end.

(** [process_task], the same body in both classes: make the chat session
    on first use, send the prompt, return the text of the response.  A
    Python reference always points at an object; the branch for a location
    outside the store only makes the lookup total and is never taken from a
    state that satisfies [wf] below. *)
Definition process_task_body (self : loc) (prompt_text : string)
    : M (option string) :=
  w <- gets (fun s => heap s !! self) ;;
  match w with
  | None => raise (PyExc "ReferenceError" "no such object")
  | Some w =>
      c <- match w_chat_session w with
           | None =>
               c <- chats_create (w_model_name w) ;;
               set_chat_session self c ;;
               ret c
           | Some c => ret c
           end ;;
      send_message c prompt_text
  end.

(** Dynamic dispatch of [worker.process_task(prompt)] on the class. *)
Definition process_task (self : loc) (prompt_text : string)
    : M (option string) :=
  w <- gets (fun s => heap s !! self) ;;
  match w_class <$> w with
  | Some FlashImplementation => process_task_body self prompt_text
  | Some HighReasoningImplementation => process_task_body self prompt_text
  | None => raise (PyExc "ReferenceError" "no such object")
  end.

Definition newline : string := String (ascii_of_nat 10) EmptyString.

(** The f-string sent to the picker model. *)
Definition router_prompt (user_prompt : string) : string :=
  "Analyze this prompt: '" +:+ user_prompt +:+ "'" +:+ newline +:+
  "If it requires complex reasoning, coding, or creative writing, reply 'HEAVY'."
    +:+ newline +:+
  "If it is a simple greeting, factual lookup, or short question, reply 'LIGHT'."
    +:+ newline +:+
  "Reply ONLY with the word HEAVY or LIGHT.".

(** [response.text.strip().upper()]; on [None] the attribute access raises. *)
Definition decision_of_text (text : option string) : M string :=
  match text with
  | Some t => ret (Py.upper (Py.strip t))
  | None => raise (PyExc "AttributeError"
                     "'NoneType' object has no attribute 'strip'")
  end.

(** [route_logic(client, settings, user_prompt)] *)
Definition route_logic (user_prompt : string) : M (loc * string) :=
  decision <-
    try_except
      (picker <- chats_create (picker_model settings) ;;
       text <- send_message picker (router_prompt user_prompt) ;;
       decision_of_text text)
      (fun _ => ret "HEAVY") ;;
  if Py.str_in "HEAVY" decision then
    w <- new_worker HighReasoningImplementation (heavy_model settings) ;;
    ret (w, heavy_model settings)
  else
    w <- new_worker FlashImplementation (light_model settings) ;;
    ret (w, light_model settings).

(** [range(n)] *)
Definition range (n : Z) : list Z := map Z.of_nat (seq 0 (Z.to_nat n)).

(** The [for attempt in range(max_retries)] loop.  It ends by [break] with
    the text just received, by [raise e], or, when the range runs out, with
    [result] still [None]. *)
Fixpoint for_attempt (max_retries base_delay : Z) (worker : loc)
    (prompt : string) (attempts : list Z) : M (option string) :=
  match attempts with
  | [] => ret None
  | attempt :: attempts' =>
      r <- try_except
             (result <- process_task worker prompt ;;
              ret (inl result))
             (fun e =>
                let error_str := str e in
                if Py.str_in "503" error_str && (attempt <? max_retries - 1)%Z
                then
                  let wait_time := (base_delay * 2 ^ attempt)%Z in
                  let dots := Py.repeat "." (Z.to_nat (attempt + 1)) in
                  log_write (LogRetry wait_time dots) ;;
                  sleep wait_time ;;
                  ret (inr tt)
                else raise e) ;;
      match r with
      | inl result => ret result
      | inr _ => for_attempt max_retries base_delay worker prompt attempts'
      end
  end.

(** Lines 197-236 of [process_user_request]: the retry loop inside
    [try / except / finally], for given [max_retries] and [base_delay]. *)
Definition retry_block (max_retries base_delay : Z) (worker : loc)
    (prompt : string) : M unit :=
  try_finally
    (try_except
       (result <- for_attempt max_retries base_delay worker prompt
                    (range max_retries) ;;
        log_write_str (result_line result) (LogResult result) ;;
        log_write_str rule_line LogRule)
       (fun e => log_write_str (error_line e) (LogError e)))
    (modify (set_status "WAITING" None)).

(** Lines 184-195 of [process_user_request]: route on an unbound session,
    reuse the stored worker otherwise. *)
Definition resolve_worker (prompt : string) : M (loc * option string) :=
  cur <- gets current_worker ;;
  match cur with
  | None =>
      log_write LogRouting ;;
      p <- route_logic prompt ;;
      modify (set_current_worker (Some (fst p))) ;;
      modify (set_current_model_name (Some (snd p))) ;;
      log_write (LogRoutedTo (snd p)) ;;
      ret (fst p, Some (snd p))
  | Some worker =>
      model_name <- gets current_model_name ;;
      ret (worker, model_name)
  end.

Definition max_retries : Z := 5.
Definition base_delay : Z := 1.

(** [GeminiTui.process_user_request(prompt)], the coroutine run to its
    end. *)
Definition process_user_request (prompt : string) : M unit :=
  p <- resolve_worker prompt ;;
  retry_block max_retries base_delay (fst p) prompt.

(** Calling a method under [@work(exit_on_error=False)]: the coroutine is
    run to its end as a worker of its own; an exception that leaves it
    stays with the worker and the application goes on. *)
Definition work {A} (coroutine : M A) : M unit :=
  try_except (coroutine ;; ret tt) (fun _ => ret tt).

(** [GeminiTui.on_input_submitted(event)], with [event.value = value]; the
    request it starts is run to its end before the next event. *)
Definition on_input_submitted (value : string) : M unit :=
  let user_text := Py.strip value in
  if Py.is_empty user_text then ret tt
  else
    modify (fun s => set_input "" (input_focused s) s) ;;
    log_write (LogUser user_text) ;;
    work (process_user_request user_text).

(** [GeminiTui.action_new_session()] *)
Definition action_new_session : M unit :=
  log_clear ;;
  modify (set_current_worker None) ;;
  modify (set_current_model_name None) ;;
  modify (fun s => set_input (user_input s) true s) ;;
  log_write LogReset.

End WithService.

(** The state after [__init__], [compose] and a successful [on_mount]. *)
Definition initial_state : state :=
  {| current_worker := None; current_model_name := None; heap := [];
     chat_log := [LogInit]; model_status := "WAITING";
     status_background := None; user_input := "";
     input_focused := true; next_chat := 0; n_sends := 0; trace := [] |}.

(** *** What a run lets one observe *)

(** The calls made between two states of one run. *)
Definition new_events (st st' : state) : list event :=
  drop (length (trace st)) (trace st').

(** The classifier ran on [prompt]: a chat was made on the picker model and
    the routing question about [prompt] was sent on it. *)
Definition classifier_invoked (settings : AppSettings) (prompt : string)
    (evs : list event) : Prop :=
  exists c, EvCreateChat (picker_model settings) c ∈ evs
            /\ EvSendMessage c (router_prompt prompt) ∈ evs.

(** The tier of the worker that [route_logic] hands back. *)
Definition delegated_tier (settings : AppSettings) (remote : nat -> outcome)
    (user_prompt : string) (st : state) : option Tier :=
  match run (route_logic settings remote user_prompt) st with
  | (Return p, st') => tier_of <$> heap st' !! fst p
  | (Raise _, _) => None
  end.

(** The chat a worker talks on: its session, or the one its first
    [process_task] will make. *)
Definition chat_of (st : state) (obj : worker) : chat :=
  match w_chat_session obj with
  | Some c => c
  | None => next_chat st
  end.

(** The call that makes that session, when there is none yet. *)
Definition chat_creation (st : state) (obj : worker) : list event :=
  match w_chat_session obj with
  | Some _ => []
  | None => [EvCreateChat (w_model_name obj) (next_chat st)]
  end.

(** The state once the run has written [notes] to the log, had [n] more
    calls answered and made the calls [evs]. *)
Definition advance (notes : list log_entry) (n : nat) (evs : list event)
    (s : state) : state :=
  set_chat_log (chat_log s ++ notes)
    (set_world (next_chat s) (n_sends s + n) (trace s ++ evs) s).

(** The worker [obj] at [w] with its chat session in place. *)
Definition with_session (st : state) (obj : worker) : worker :=
  {| w_class := w_class obj; w_model_name := w_model_name obj;
     w_chat_session := Some (chat_of st obj) |}.

(** The state once the worker at [w] has made its chat session, if it had
    none. *)
Definition with_chat (w : loc) (obj : worker) (s : state) : state :=
  match w_chat_session obj with
  | Some _ => s
  | None =>
      set_heap (<[w := with_session s obj]> (heap s))
        (set_world (S (next_chat s)) (n_sends s)
           (trace s ++ [EvCreateChat (w_model_name obj) (next_chat s)]) s)
  end.

(** Transport attempts on chat [c] with the given waits between them. *)
Fixpoint attempts_trace (c : chat) (prompt : string) (delays : list Z)
    : list event :=
  match delays with
  | [] => [EvSendMessage c prompt]
  | d :: delays' => EvSendMessage c prompt :: EvSleep d :: attempts_trace c prompt delays'
  end.

(** [base_delay * 2 ** i] for [i = 0 .. k-1]. *)
Definition backoff (base_delay : Z) (k : nat) : list Z :=
  map (fun i => (base_delay * 2 ^ Z.of_nat i)%Z) (seq 0 k).

(** The retry lines for attempts [0 .. k-1]: the wait, and one dot more
    than the attempt index. *)
Definition retry_notices (base_delay : Z) (k : nat) : list log_entry :=
  map (fun i => LogRetry (base_delay * 2 ^ Z.of_nat i)%Z (Py.repeat "." (S i)))
      (seq 0 k).

(** A failure is transient when [str(e)] contains 503. *)
Definition transient (e : exn) : bool := Py.str_in "503" (str e).

(** Between requests, a bound session has a worker object with a live chat
    session, and every chat session in the store was handed out by the
    service. *)
Definition wf (st : state) : Prop :=
  (forall w, current_worker st = Some w ->
     exists obj c, heap st !! w = Some obj /\ w_chat_session obj = Some c)
  /\ (forall w obj c, heap st !! w = Some obj -> w_chat_session obj = Some c ->
        c < next_chat st).

(** The states a session is in between two events: the start, and what a
    submitted line or the new-session key makes of such a state. *)
Inductive reachable (settings : AppSettings) (remote : nat -> outcome)
    (markup : string -> option exn) : state -> Prop :=
| reach_start : reachable settings remote markup initial_state
| reach_submit (value : string) (st : state) :
    reachable settings remote markup st ->
    reachable settings remote markup
      (exec (on_input_submitted settings remote markup value) st)
| reach_new_session (st : state) :
    reachable settings remote markup st ->
    reachable settings remote markup (exec action_new_session st).

(** The line is one of the retry loop's. *)
Definition is_retry_line (entry : log_entry) : bool :=
  match entry with
  | LogRetry _ _ => true
  | _ => false
  end.

(** How the [try / except] around the loop ends, by what the loop ended
    with: the lines it gets onto the log and what leaves it.  An answer is
    shown with the rule under it; an error of the loop, or of showing the
    answer, is shown as an error line; an error of showing that line
    leaves the block. *)
Definition block_ending (markup : string -> option exn)
    (r : result (option string)) : result unit * list log_entry :=
  let report := fun e =>
    match from_markup markup (error_line e) with
    | None => (Return tt, [LogError e])
    | Some e' => (Raise e', [])
    end in
  match r with
  | Return t =>
      match from_markup markup (result_line t) with
      | None => (Return tt, [LogResult t; LogRule])
      | Some e => report e
      end
  | Raise e => report e
  end.

(** The failure a request reported, if it ended by reporting one. *)
Definition reported_failure (st : state) : option exn :=
  match last (chat_log st) with
  | Some (LogError e) => Some e
  | _ => None
  end.

(** The string has white space only. *)
Fixpoint all_space (s : string) : bool :=
  match s with
  | EmptyString => true
  | String c s' => Py.isspace c && all_space s'
  end.

(** [token], given in upper case, occurs in [text] when case is ignored. *)
Definition occurs_ci (token text : string) : Prop :=
  exists pre mid suf, text = pre +:+ mid +:+ suf /\ Py.upper mid = token.

(** The tier as the specification words it: the first of the tokens HEAVY
    and LIGHT met when the response is read from the left, case ignored,
    and HEAVY when neither is met. *)
Fixpoint first_token (s : string) : Tier :=
  if String.prefix "HEAVY" s then HEAVY
  else if String.prefix "LIGHT" s then LIGHT
  else match s with
       | EmptyString => HEAVY
       | String _ s' => first_token s'
       end.

Definition spec_first_token_tier (text : string) : Tier :=
  first_token (Py.upper text).

(** A cause other than the transport's own last error, as the
    specification words the end of an exhausted retry. *)
Definition spec_retry_exhausted (last_error : exn) (st' : state) : Prop :=
  exists cause, reported_failure st' = Some cause /\ cause <> last_error.


(** *** Sample runs *)

(** A service that answers the calls of a run from a script, and with
    [default] once the script is used up. *)
Definition scripted (script : list outcome) (default : outcome)
    : nat -> outcome :=
  fun n => match script !! n with Some o => o | None => default end.

Definition e503 : exn := PyExc "ServerError" "503 UNAVAILABLE".
Definition e401 : exn := PyExc "ClientError" "401 UNAUTHENTICATED".

(** A tag parser for sample runs that refuses whatever reaches it, with a
    message that quotes the text. *)
Definition refuse_tags : string -> option exn :=
  fun text =>
    Some (PyExc "MarkupError"
            ("closing tag in '" +:+ text +:+ "' doesn't match any open tag")).

(** The session after one answered prompt that the picker called HEAVY. *)
Definition bound_state : state :=
  exec (process_user_request default_settings
          (scripted [Reply (Some "HEAVY")] (Reply (Some "Hello")))
          refuse_tags "hello")
       initial_state.

End Tui.

(** ** Whole conversations on [tui.py] *)

Module Session.
Import Tui.
Local Open Scope py_scope.

(** Prompts handled one after the other, each request a worker run to its
    end. *)
Fixpoint handle_all (settings : AppSettings) (remote : nat -> outcome)
    (markup : string -> option exn) (prompts : list string) : M unit :=
  match prompts with
  | [] => ret tt
  | prompt :: prompts' =>
      work (process_user_request settings remote markup prompt) ;;
      handle_all settings remote markup prompts'
  end.

(** The waits among the calls of a run, in order. *)
Fixpoint sleeps_of (evs : list event) : list Z :=
  match evs with
  | [] => []
  | EvSleep d :: evs' => d :: sleeps_of evs'
  | _ :: evs' => sleeps_of evs'
  end.

(** The messages among the calls of a run, in order. *)
Fixpoint messages_of (evs : list event) : list (chat * string) :=
  match evs with
  | [] => []
  | EvSendMessage c text :: evs' => (c, text) :: messages_of evs'
  | _ :: evs' => messages_of evs'
  end.

(** The time a run spends waiting. *)
Definition total_sleep (evs : list event) : Z :=
  fold_right Z.add 0%Z (sleeps_of evs).

(** The application's attributes agree with the store and with the calls
    made: every answered call is a message of the trace; an unbound session
    has no model name; a bound one names the model of its worker, which is
    the heavy model for a [HighReasoningImplementation] and the light one
    for a [FlashImplementation]. *)
Definition consistent (settings : AppSettings) (st : state) : Prop :=
  n_sends st = length (messages_of (trace st))
  /\ match current_worker st with
     | None => current_model_name st = None
     | Some w =>
         exists obj,
           heap st !! w = Some obj
           /\ current_model_name st = Some (w_model_name obj)
           /\ ((w_class obj = HighReasoningImplementation
                /\ w_model_name obj = heavy_model settings)
               \/ (w_class obj = FlashImplementation
                   /\ w_model_name obj = light_model settings))
     end.

End Session.

(** ** [src/app.py]: the [RouterTUI] application *)

Module Router.

(** What the [Markdown] viewer shows, by the template that makes it. *)
Inductive document :=
| DocWelcome                       (* # Welcome Scribe ... *)
| DocThinking                      (* ## Thinking... *)
| DocResponse (model_name timestamp : string) (raw_response : option string)
              (user_text : string) (* # Assistant Response ... *)
| DocError (message : string)      (* # Error {str(e)} *)
| DocCleared.                      (* # Cleared *)

(** The widgets, and the [generate_content] calls made so far, each with
    its [model] and [contents]. *)
Record ui := {
  md_viewer : document;
  user_input : string;
  calls : list (string * string)
}.

Section WithService.

(** The client handle, the settings, the service ([remote n] is what the
    [n]-th [generate_content] of the run does) and the clock ([clock n] is
    what [datetime.now().strftime] gives after the [n]-th call). *)
Variable Client : Type.
Variable client : Client.
Variable settings : App.AppSettings.
Variable remote : nat -> Tui.outcome.
Variable clock : nat -> string.

(** [worker.process_task(prompt_text)]: one [generate_content] on the
    worker's model; both classes have this body. *)
Definition process_task (worker : App.LLMInterface Client)
    (prompt_text : string) (st : ui) : Tui.outcome * ui :=
  let target :=
    match worker with
    | App.FlashImplementation _ _ model_id => model_id
    | App.HighReasoningImplementation _ _ model_id => model_id
    end in
  (remote (length (calls st)),
   {| md_viewer := md_viewer st; user_input := user_input st;
      calls := calls st ++ [(target, prompt_text)] |}).

(** [RouterTUI.handle_llm_request(user_text)] *)
Definition handle_llm_request (user_text : string) (st : ui) : ui :=
  let st1 := {| md_viewer := DocThinking; user_input := "";
                calls := calls st |} in
  let routed := App.route_logic user_text client settings in
  match process_task (fst routed) user_text st1 with
  | (Tui.Reply raw_response, st2) =>
      {| md_viewer := DocResponse (snd routed) (clock (length (calls st)))
                        raw_response user_text;
         user_input := user_input st2; calls := calls st2 |}
  | (Tui.Fail e, st2) =>
      {| md_viewer := DocError (Tui.str e);
         user_input := user_input st2; calls := calls st2 |}
  end.

(** [RouterTUI.on_mount()], with [self.initial_prompt]: [None] and the empty
    string are both false. *)
Definition on_mount (initial_prompt : option string) (st : ui) : ui :=
  match initial_prompt with
  | None => st
  | Some prompt =>
      if Py.is_empty prompt then st
      else handle_llm_request prompt
             {| md_viewer := md_viewer st; user_input := prompt;
                calls := calls st |}
  end.

(** [RouterTUI.on_input_submitted(event)] *)
Definition on_input_submitted (value : string) (st : ui) : ui :=
  handle_llm_request value st.

(** [RouterTUI.action_clear()] *)
Definition action_clear (st : ui) : ui :=
  {| md_viewer := DocCleared; user_input := user_input st;
     calls := calls st |}.

(** Lines submitted one after the other. *)
Definition submit_all (values : list string) (st : ui) : ui :=
  fold_left (fun st value => on_input_submitted value st) values st.

End WithService.

(** The widgets as [compose] makes them. *)
Definition initial_ui : ui :=
  {| md_viewer := DocWelcome; user_input := ""; calls := [] |}.

(** The defaults of the [AppSettings] fields of [app.py]. *)
Definition default_settings : App.AppSettings :=
  {| App.heavy_model := "gemini-2-pro-preview";
     App.light_model := "gemini-2.5-flash" |}.

End Router.

(** ** [src/main.py]: the command line entry *)

Module MainCli.

(** Lines written by [click.echo]. *)
Inductive line :=
| LineRunning (now : string)          (* Cli is running: {now} *)
| LineSelected (model_name : string)  (* Selected model is {model_name} *)
| LineResult (result : option string).  (* {result} *)

(** Standard output and the [generate_content] calls made. *)
Record world := {
  stdout : list line;
  calls : list (string * string)
}.

(** How the command ends: it returns, or an exception leaves it. *)
Inductive ending := Finished | Crashed (e : Tui.exn).

Section WithService.

Variable Client : Type.
Variable client : Client.
Variable settings : Main.AppSettings.
Variable remote : nat -> Tui.outcome.
Variable now : string.

(** [worker.process_task(prompt_text)] *)
Definition process_task (worker : Main.LLMInterface Client)
    (prompt_text : string) (w : world) : Tui.outcome * world :=
  let model_name :=
    match worker with
    | Main.FlashImplementation _ _ m => m
    | Main.HighReasoningImplementation _ _ m => m
    end in
  (remote (length (calls w)),
   {| stdout := stdout w; calls := calls w ++ [(model_name, prompt_text)] |}).

(** [cli(prompt)], with the settings and the client made without error. *)
Definition cli (prompt : string) (w : world) : ending * world :=
  let w1 := {| stdout := stdout w ++ [LineRunning now]; calls := calls w |} in
  let routed := Main.route_logic client settings prompt in
  let w2 := {| stdout := stdout w1 ++ [LineSelected (snd routed)];
               calls := calls w1 |} in
  match process_task (fst routed) prompt w2 with
  | (Tui.Reply result, w3) =>
      (Finished,
       {| stdout := stdout w3 ++ [LineResult result]; calls := calls w3 |})
  | (Tui.Fail e, w3) => (Crashed e, w3)
  end.

End WithService.

Definition empty_world : world := {| stdout := []; calls := [] |}.

End MainCli.

(** ** [src/scaffold.py]: the word-count heuristic *)

Module Scaffold.

(** [s.split()]: the maximal runs of characters that are no white space;
    [cur] is the run being read. *)
Fixpoint split_go (cur : string) (s : string) : list string :=
  match s with
  | EmptyString => if Py.is_empty cur then [] else [cur]
  | String c s' =>
      if Py.isspace c then
        if Py.is_empty cur then split_go EmptyString s'
        else cur :: split_go EmptyString s'
      else split_go (cur +:+ String c EmptyString) s'
  end.

Definition split (s : string) : list string := split_go EmptyString s.

(** [heuristic_check(text_blob)] *)
Definition heuristic_check (text_blob : string) : bool :=
  (50 <? length (split text_blob)) || Py.str_in "?" text_blob.

Section WithApi.

(** [call_external_api(model=..., content=...)], not defined in the file. *)
Variable Answer : Type.
Variable call_external_api : string -> string -> Answer.

(** The two workers of the file. *)
Inductive BaseWorker := LightWorker | HeavyWorker.

(** [strategy.process_task(data)] *)
Definition process_task (strategy : BaseWorker) (data : string) : Answer :=
  match strategy with
  | LightWorker => call_external_api "fast-gen" data
  | HeavyWorker => call_external_api "smart-gen" data
  end.

(** [orchestrator_loop(raw_input)] *)
Definition orchestrator_loop (raw_input : string) : Answer :=
  let strategy :=
    if heuristic_check raw_input then HeavyWorker else LightWorker in
  process_task strategy raw_input.

End WithApi.

End Scaffold.

(** ** [src/mini-cli.py]: the two counters *)

Module MiniCli.

(** What one coroutine has done: the numbers it printed and how often it
    slept for one second. *)
Record task_log := {
  printed : list Z;
  naps : nat
}.

(** The body of [counter_up], once per element of the range. *)
Fixpoint counter_up_loop (iterations : list Z) (number : Z) (out : task_log)
    : Z * task_log :=
  match iterations with
  | [] => (number, out)
  | _ :: iterations' =>
      let number := (number + 1)%Z in
      counter_up_loop iterations' number
        {| printed := printed out ++ [number]; naps := S (naps out) |}
  end.

(** The body of [counter_down], once per element of the range. *)
Fixpoint counter_down_loop (iterations : list Z) (number : Z) (out : task_log)
    : Z * task_log :=
  match iterations with
  | [] => (number, out)
  | _ :: iterations' =>
      let number := (number - 1)%Z in
      counter_down_loop iterations' number
        {| printed := printed out ++ [number]; naps := S (naps out) |}
  end.

Definition no_log : task_log := {| printed := []; naps := 0 |}.

(** [counter_up(number)] *)
Definition counter_up (number : Z) : Z * task_log :=
  counter_up_loop (Tui.range 10) number no_log.

(** [counter_down(number)] *)
Definition counter_down (number : Z) : Z * task_log :=
  counter_down_loop (Tui.range 10) number no_log.

(** [counting_logic(number)]: [asyncio.gather] hands back the results in
    the order of its arguments.  Each coroutine works on its own copy of
    [number]; how their prints interleave is not modelled, each keeps its
    own log. *)
Definition counting_logic (number : Z) : list Z * (task_log * task_log) :=
  let up := counter_up number in
  let down := counter_down number in
  ([fst up; fst down], (snd up, snd down)).

End MiniCli.

(** * Properties *)

Local Close Scope string_scope.

(** ** Strings *)

Section StringFacts.

#[local] Arguments String.append !s1 s2 : simpl nomatch.

Lemma append_empty_r (s : string) : s +:+ "" = s.
Proof. induction s as [|c s IH]; simpl; [reflexivity | now rewrite IH]. Qed.

Lemma append_assoc (a b c : string) : (a +:+ b) +:+ c = a +:+ b +:+ c.
Proof. induction a as [|x a IH]; simpl; [reflexivity | now rewrite IH]. Qed.

Lemma prefix_iff (n h : string) :
  String.prefix n h = true <-> exists suf, h = n +:+ suf.
Proof.
  revert h. induction n as [|c n IH]; intros h.
  - destruct h; simpl; split; eauto.
  - destruct h as [|d h]; simpl.
    + split; [discriminate | intros [suf Hs]; discriminate].
    + destruct (Ascii.ascii_dec c d) as [->|Hne].
      * rewrite IH. split; intros [suf Hs]; exists suf; congruence.
      * split; [discriminate | intros [suf Hs]; congruence].
Qed.

Lemma str_in_nil (n : string) : Py.str_in n "" = String.prefix n "".
Proof. simpl. apply orb_false_r. Qed.

Lemma str_in_cons (n : string) (d : ascii) (h : string) :
  Py.str_in n (String d h) = String.prefix n (String d h) || Py.str_in n h.
Proof. reflexivity. Qed.

Lemma str_in_iff (n h : string) :
  Py.str_in n h = true <-> exists pre suf, h = pre +:+ n +:+ suf.
Proof.
  induction h as [|d h IH].
  - rewrite str_in_nil, prefix_iff. split.
    + intros [suf Hs]. exists "", suf. exact Hs.
    + intros [pre [suf Hs]]. destruct pre; [eauto | discriminate].
  - rewrite str_in_cons, orb_true_iff, prefix_iff, IH. split.
    + intros [[suf Hs] | [pre [suf Hs]]].
      * exists "", suf. exact Hs.
      * exists (String d pre), suf. simpl. now rewrite Hs.
    + intros [pre [suf Hs]]. destruct pre as [|x pre]; simpl in Hs.
      * left. eauto.
      * right. exists pre, suf. congruence.
Qed.

Lemma upper_app (a b : string) : Py.upper (a +:+ b) = Py.upper a +:+ Py.upper b.
Proof. induction a as [|x a IH]; simpl; [reflexivity | now rewrite IH]. Qed.

Lemma upper_split (s a' b' : string) :
  Py.upper s = a' +:+ b' ->
  exists a b, s = a +:+ b /\ Py.upper a = a' /\ Py.upper b = b'.
Proof.
  revert s. induction a' as [|x a' IH]; intros s H.
  - exists "", s. auto.
  - destruct s as [|c s]; simpl in H; [discriminate|].
    injection H as Hc Hs. destruct (IH _ Hs) as (a & b & -> & Ha & Hb).
    exists (String c a), b. simpl. now rewrite Hc, Ha.
Qed.

Lemma all_space_lstrip (s : string) :
  Tui.all_space s = true -> Py.lstrip s = "".
Proof.
  induction s as [|c s IH]; simpl; [reflexivity|].
  intros [Hc Hs]%andb_true_iff. rewrite Hc. auto.
Qed.

Lemma all_space_strip (s : string) :
  Tui.all_space s = true -> Py.strip s = "".
Proof. intros H. unfold Py.strip. now rewrite all_space_lstrip. Qed.

(** An upper-cased character that is a letter of HEAVY was no white space. *)
Lemma upper_char_not_space (c : ascii) :
  Py.isspace (Py.upper_char c) = false -> Py.isspace c = false.
Proof.
  unfold Py.upper_char.
  destruct ((97 <=? nat_of_ascii c) && (nat_of_ascii c <=? 122)) eqn:E; [|auto].
  intros _. unfold Py.isspace.
  apply andb_true_iff in E as [E1 E2].
  apply Nat.leb_le in E1. apply Nat.leb_le in E2.
  rewrite orb_false_iff, !andb_false_iff, !Nat.leb_gt. lia.
Qed.

(** [lstrip] drops a prefix and nothing of a word that starts with a
    character that is no white space. *)
Lemma lstrip_keeps (pre : string) (c : ascii) (rest : string) :
  Py.isspace c = false ->
  exists pre', Py.lstrip (pre +:+ String c rest) = pre' +:+ String c rest.
Proof.
  intros Hc. induction pre as [|x pre IH]; simpl.
  - rewrite Hc. now exists "".
  - destruct (Py.isspace x); [exact IH|].
    now exists (String x pre).
Qed.

Lemma rstrip_nonempty (s : string) (c : ascii) (suf : string) :
  Py.isspace c = false -> Py.rstrip (s +:+ String c suf) <> "".
Proof.
  intros Hc. induction s as [|x s IH]; simpl.
  - destruct (Py.rstrip suf); [now rewrite Hc | discriminate].
  - destruct (Py.rstrip (s +:+ String c suf)); [contradiction | discriminate].
Qed.

(** [rstrip] drops a suffix and nothing up to a character that is no white
    space. *)
Lemma rstrip_keeps (s : string) (c : ascii) (suf : string) :
  Py.isspace c = false ->
  exists suf', Py.rstrip (s +:+ String c suf) = s +:+ String c suf'.
Proof.
  intros Hc. induction s as [|x s IH]; simpl.
  - destruct (Py.rstrip suf) as [|y r] eqn:E.
    + rewrite Hc. now exists "".
    + now exists (String y r).
  - destruct IH as [suf' IH].
    pose proof (rstrip_nonempty s c suf Hc) as Hne.
    rewrite IH in *. destruct (s +:+ String c suf') eqn:E; [contradiction|].
    exists suf'. now rewrite E.
Qed.

Lemma lstrip_suffix (s : string) : exists pre, s = pre +:+ Py.lstrip s.
Proof.
  induction s as [|c s [pre IH]]; simpl.
  - now exists "".
  - destruct (Py.isspace c).
    + exists (String c pre). simpl. now rewrite <- IH.
    + now exists "".
Qed.

Lemma rstrip_prefix (s : string) : exists suf, s = Py.rstrip s +:+ suf.
Proof.
  induction s as [|c s [suf IH]]; simpl.
  - now exists "".
  - destruct (Py.rstrip s) as [|y r] eqn:E.
    + destruct (Py.isspace c).
      * exists (String c s). reflexivity.
      * exists suf. simpl. now rewrite IH at 1.
    + exists suf. simpl. now rewrite IH at 1.
Qed.

Lemma strip_infix (s : string) :
  exists pre suf, s = pre +:+ Py.strip s +:+ suf.
Proof.
  destruct (lstrip_suffix s) as [pre Hp].
  destruct (rstrip_prefix (Py.lstrip s)) as [suf Hs].
  exists pre, suf. unfold Py.strip. now rewrite <- Hs.
Qed.

(** The test [route_logic] makes on the picker's answer sees exactly the
    occurrences of HEAVY in the raw text, case ignored: stripping removes
    nothing of them. *)
Lemma heavy_test_iff (text : string) :
  Py.str_in "HEAVY" (Py.upper (Py.strip text)) = true
  <-> Tui.occurs_ci "HEAVY" text.
Proof.
  rewrite str_in_iff. split.
  - intros (pre' & suf' & H).
    apply upper_split in H as (a & rest & Hs & _ & Hrest).
    apply upper_split in Hrest as (m & b & -> & Hm & _).
    destruct (strip_infix text) as (p & q & Ht).
    exists (p +:+ a), m, (b +:+ q). split; [|exact Hm].
    rewrite Ht at 1. rewrite Hs. now rewrite !append_assoc.
  - intros (pre & mid & suf & -> & Hm).
    destruct mid as [|c1 [|c2 [|c3 [|c4 [|c5 [|c6 mid]]]]]]; try discriminate.
    cbn [Py.upper] in Hm. injection Hm as H1 H2 H3 H4 H5.
    assert (Py.isspace c1 = false) as S1
      by (apply upper_char_not_space; now rewrite H1).
    assert (Py.isspace c5 = false) as S5
      by (apply upper_char_not_space; now rewrite H5).
    simpl. unfold Py.strip.
    destruct (lstrip_keeps pre c1
                (String c2 (String c3 (String c4 (String c5 suf)))) S1)
      as [pre' ->].
    destruct (rstrip_keeps
                (pre' +:+ String c1 (String c2 (String c3 (String c4 ""))))
                c5 suf S5) as [suf' Hr].
    rewrite append_assoc in Hr. simpl in Hr. rewrite Hr.
    exists (Py.upper pre'), (Py.upper suf').
    rewrite append_assoc, !upper_app. cbn [Py.upper String.append].
    now rewrite H1, H2, H3, H4, H5.
Qed.

End StringFacts.

(** ** The heuristic classifiers of [app.py] and [main.py] *)

(** C8, as the code has it.  The heuristic tier is a function of the prompt
    text alone: client and settings do not matter.  With the threshold of
    [app.py], a prompt shorter than 100 characters goes to the fast model
    and any other to the reasoning model.  [main.py] has a threshold of its
    own: a prompt of at most 20 characters goes to the fast model and any
    longer one to the reasoning model. *)
Theorem heuristic_is_length_threshold :
  forall (Client : Type) (c1 c2 : Client)
         (s1 s2 : App.AppSettings) (m1 m2 : Main.AppSettings)
         (text : string),
    App.tier_of (fst (App.route_logic text c1 s1))
      = App.tier_of (fst (App.route_logic text c2 s2))
    /\ (Py.len text < 100 ->
          App.route_logic text c1 s1
            = (App.FlashImplementation Client c1 (App.light_model s1),
               "Gemini Flash (Fast)"%string)
          /\ App.tier_of (fst (App.route_logic text c1 s1)) = LIGHT)
    /\ (100 <= Py.len text ->
          App.route_logic text c1 s1
            = (App.HighReasoningImplementation Client c1 (App.heavy_model s1),
               "Gemini Pro (Reasoning)"%string)
          /\ App.tier_of (fst (App.route_logic text c1 s1)) = HEAVY)
    /\ App.tier_of (fst (App.route_logic text c1 s1)) = spec_heuristic_tier text
    /\ Main.tier_of (fst (Main.route_logic c1 m1 text))
         = Main.tier_of (fst (Main.route_logic c2 m2 text))
    /\ (Py.len text <= 20 ->
          Main.route_logic c1 m1 text
            = (Main.FlashImplementation Client c1 (Main.light_model m1),
               Main.light_model m1)
          /\ Main.tier_of (fst (Main.route_logic c1 m1 text)) = LIGHT)
    /\ (20 < Py.len text ->
          Main.route_logic c1 m1 text
            = (Main.HighReasoningImplementation Client c1 (Main.heavy_model m1),
               Main.heavy_model m1)
          /\ Main.tier_of (fst (Main.route_logic c1 m1 text)) = HEAVY).
Proof.
  intros Client c1 c2 s1 s2 m1 m2 text.
  unfold App.route_logic, Main.route_logic, spec_heuristic_tier.
  destruct (Nat.ltb_spec (Py.len text) 100) as [Hlt|Hge];
    destruct (Nat.ltb_spec 20 (Py.len text)) as [Hlt'|Hge'];
    repeat split; intros; try reflexivity; lia.
Qed.

(** The prompt "hi" and a prompt of 150 characters, in both programs. *)
Lemma heuristic_is_length_threshold_witness :
  App.tier_of (fst (App.route_logic "hi" tt
                      {| App.heavy_model := "gemini-2-pro-preview";
                         App.light_model := "gemini-2.5-flash" |})) = LIGHT
  /\ Main.tier_of (fst (Main.route_logic tt
                      {| Main.heavy_model := "gemini-2.5-flash";
                         Main.light_model := "gemini-2.5-flash" |} "hi")) = LIGHT
  /\ App.tier_of (fst (App.route_logic (Py.repeat "x" 150) tt
                      {| App.heavy_model := "gemini-2-pro-preview";
                         App.light_model := "gemini-2.5-flash" |})) = HEAVY
  /\ Main.tier_of (fst (Main.route_logic tt
                      {| Main.heavy_model := "gemini-2.5-flash";
                         Main.light_model := "gemini-2.5-flash" |}
                      (Py.repeat "x" 150))) = HEAVY.
Proof.
  pose (sa := {| App.heavy_model := "gemini-2-pro-preview";
                 App.light_model := "gemini-2.5-flash" |} : App.AppSettings).
  pose (sm := {| Main.heavy_model := "gemini-2.5-flash";
                 Main.light_model := "gemini-2.5-flash" |} : Main.AppSettings).
  pose proof (heuristic_is_length_threshold unit tt tt sa sa sm sm "hi")
    as (_ & Hlight & _ & _ & _ & Hlight' & _).
  pose proof (heuristic_is_length_threshold unit tt tt sa sa sm sm
                (Py.repeat "x" 150))
    as (_ & _ & Hheavy & _ & _ & _ & Hheavy').
  split; [apply Hlight; vm_compute; lia|].
  split; [apply Hlight'; vm_compute; lia|].
  split; [apply Hheavy; vm_compute; lia|].
  apply Hheavy'; vm_compute; lia.
Defined.

(** C8 as worded fails for [main.py]: a prompt of 50 characters is shorter
    than 100 characters, and [main.py] sends it to the reasoning model. *)
Lemma heuristic_threshold_counterexample :
  let settings := {| Main.heavy_model := "gemini-2.5-flash";
                     Main.light_model := "gemini-2.5-flash" |} in
  let text := Py.repeat "x" 50 in
  Py.len text = 50
  /\ spec_heuristic_tier text = LIGHT
  /\ Main.tier_of (fst (Main.route_logic tt settings text)) = HEAVY
  /\ ~ (forall prompt : string,
          Main.tier_of (fst (Main.route_logic tt settings prompt))
          = spec_heuristic_tier prompt).
Proof.
  intros settings text. repeat split; try reflexivity.
  intros H. specialize (H text). vm_compute in H. discriminate.
Qed.

(** ** Running the monad *)

Section RunFacts.

Import Tui.
Variable settings : AppSettings.
Variable remote : nat -> outcome.
Variable markup : string -> option exn.

Lemma advance_id (st : state) : advance [] 0 [] st = st.
Proof.
  destruct st. unfold advance, set_chat_log, set_world. simpl.
  now rewrite !app_nil_r, Nat.add_0_r.
Qed.

Lemma advance_advance notes n evs notes' n' evs' (st : state) :
  advance notes' n' evs' (advance notes n evs st)
  = advance (notes ++ notes') (n + n') (evs ++ evs') st.
Proof.
  unfold advance, set_chat_log, set_world. simpl.
  now rewrite !app_assoc, Nat.add_assoc.
Qed.

Lemma set_status_advance text bg notes n evs (st : state) :
  set_status text bg (advance notes n evs st)
  = advance notes n evs (set_status text bg st).
Proof. reflexivity. Qed.

Lemma log_write_run (entry : log_entry) (st : state) :
  log_write entry st = (Return tt, advance [entry] 0 [] st).
Proof.
  unfold log_write, modify, advance, set_chat_log, set_world. simpl.
  now rewrite app_nil_r, Nat.add_0_r.
Qed.

Lemma sleep_run (d : Z) (st : state) :
  sleep d st = (Return tt, advance [] 0 [EvSleep d] st).
Proof.
  unfold sleep, modify, advance, set_chat_log, set_world. simpl.
  now rewrite app_nil_r, Nat.add_0_r.
Qed.

(** What [route_logic] does, whatever the service answers: one chat on the
    picker model, one question on it, one new worker object. *)
Lemma route_logic_run (user_prompt : string) (st : state) :
  let decision :=
    match remote (n_sends st) with
    | Reply (Some t) => Py.upper (Py.strip t)
    | _ => "HEAVY"%string
    end in
  let obj :=
    if Py.str_in "HEAVY" decision
    then {| w_class := HighReasoningImplementation;
            w_model_name := heavy_model settings; w_chat_session := None |}
    else {| w_class := FlashImplementation;
            w_model_name := light_model settings; w_chat_session := None |} in
  run (route_logic settings remote user_prompt) st
  = (Return (length (heap st), w_model_name obj),
     set_heap (heap st ++ [obj])
       (set_world (S (next_chat st)) (S (n_sends st))
          (trace st ++ [EvCreateChat (picker_model settings) (next_chat st);
                        EvSendMessage (next_chat st) (router_prompt user_prompt)])
          st)).
Proof.
  unfold run, route_logic, try_except, bind, chats_create, send_message,
    decision_of_text, new_worker, ret, raise. simpl.
  destruct (remote (n_sends st)) as [[t|]|e]; simpl.
  - destruct (Py.str_in "HEAVY" (Py.upper (Py.strip t))); simpl;
      unfold set_heap, set_world; simpl; now rewrite <- app_assoc.
  - unfold set_heap, set_world; simpl; now rewrite <- app_assoc.
  - unfold set_heap, set_world; simpl; now rewrite <- app_assoc.
Qed.

(** [process_task] makes the chat session if there is none, then sends. *)
Lemma process_task_run (w : loc) (obj : worker) (prompt : string) (st : state) :
  heap st !! w = Some obj ->
  run (process_task remote w prompt) st
  = run (send_message remote (chat_of st obj) prompt) (with_chat w obj st).
Proof.
  intros Hw.
  assert (run (process_task remote w prompt) st
          = run (process_task_body remote w prompt) st) as ->.
  { unfold run, process_task, bind, gets. rewrite Hw. simpl.
    now destruct (w_class obj). }
  unfold run, process_task_body, bind, gets, chat_of, with_chat. rewrite Hw.
  destruct (w_chat_session obj) as [c|] eqn:Hc; [reflexivity|].
  unfold chats_create, set_chat_session, modify, ret, with_session, chat_of.
  simpl. now rewrite Hw, Hc.
Qed.

Lemma with_chat_lookup (w : loc) (obj : worker) (st : state) :
  heap st !! w = Some obj ->
  heap (with_chat w obj st) !! w = Some (with_session st obj).
Proof.
  intros Hw. unfold with_chat, with_session, chat_of.
  destruct (w_chat_session obj) as [c|] eqn:Hc.
  - rewrite Hw. destruct obj; simpl in *; now subst.
  - simpl. apply list_lookup_insert_eq. eapply lookup_lt_Some, Hw.
Qed.

Lemma with_chat_trace (w : loc) (obj : worker) (st : state) :
  trace (with_chat w obj st) = trace st ++ chat_creation st obj.
Proof.
  unfold with_chat, chat_creation.
  destruct (w_chat_session obj); simpl; [now rewrite app_nil_r | reflexivity].
Qed.

Lemma with_chat_frame (w : loc) (obj : worker) (st : state) :
  n_sends (with_chat w obj st) = n_sends st
  /\ chat_log (with_chat w obj st) = chat_log st
  /\ current_worker (with_chat w obj st) = current_worker st
  /\ current_model_name (with_chat w obj st) = current_model_name st.
Proof. unfold with_chat. destruct (w_chat_session obj); simpl; auto. Qed.

(** One attempt on a worker whose chat session exists. *)
Lemma send_message_run (c : chat) (prompt : string) (st : state) :
  run (send_message remote c prompt) st
  = (match remote (n_sends st) with
     | Reply t => Return t
     | Fail e => Raise e
     end,
     advance [] 1 [EvSendMessage c prompt] st).
Proof.
  unfold run, send_message, advance, set_chat_log, set_world. simpl.
  rewrite app_nil_r, Nat.add_1_r. now destruct (remote (n_sends st)).
Qed.

Lemma process_task_bound (w : loc) (obj : worker) (c : chat) (prompt : string)
    (st : state) :
  heap st !! w = Some obj -> w_chat_session obj = Some c ->
  run (process_task remote w prompt) st
  = (match remote (n_sends st) with
     | Reply t => Return t
     | Fail e => Raise e
     end,
     advance [] 1 [EvSendMessage c prompt] st).
Proof.
  intros Hw Hc. rewrite (process_task_run w obj prompt st Hw).
  unfold chat_of, with_chat. rewrite Hc. apply send_message_run.
Qed.

(** The first attempt of a non-empty loop makes the chat session; the loop
    then runs as it would from the state where the session exists. *)
Lemma for_attempt_with_chat (mx bd : Z) (w : loc) (obj : worker)
    (prompt : string) (a : Z) (attempts : list Z) (st : state) :
  heap st !! w = Some obj ->
  run (for_attempt remote mx bd w prompt (a :: attempts)) st
  = run (for_attempt remote mx bd w prompt (a :: attempts)) (with_chat w obj st).
Proof.
  intros Hw. unfold run. cbn [for_attempt]. unfold bind at 1 3, try_except, bind.
  pose proof (process_task_run w obj prompt st Hw) as H1.
  pose proof (process_task_bound w (with_session st obj) (chat_of st obj) prompt
                (with_chat w obj st) (with_chat_lookup w obj st Hw) eq_refl) as H2.
  rewrite send_message_run in H1. unfold run in H1, H2. now rewrite H1, H2.
Qed.

(** One failed attempt that is retried. *)
Lemma for_attempt_retry (mx bd : Z) (w : loc) (obj : worker) (c : chat)
    (prompt : string) (a : Z) (attempts : list Z) (e : exn) (st : state) :
  heap st !! w = Some obj -> w_chat_session obj = Some c ->
  remote (n_sends st) = Fail e -> transient e = true -> (a < mx - 1)%Z ->
  run (for_attempt remote mx bd w prompt (a :: attempts)) st
  = run (for_attempt remote mx bd w prompt attempts)
      (advance [LogRetry (bd * 2 ^ a) (Py.repeat "." (Z.to_nat (a + 1)))] 1
         [EvSendMessage c prompt; EvSleep (bd * 2 ^ a)] st).
Proof.
  intros Hw Hc He Ht Ha. unfold run. cbn [for_attempt].
  unfold bind at 1, try_except, bind.
  pose proof (process_task_bound w obj c prompt st Hw Hc) as H.
  unfold run in H. rewrite H, He. unfold transient in Ht. rewrite Ht.
  apply Z.ltb_lt in Ha. rewrite Ha. cbn [andb].
  rewrite log_write_run, sleep_run, !advance_advance. reflexivity.
Qed.

(** One failed attempt that is not retried: the error goes up. *)
Lemma for_attempt_raise (mx bd : Z) (w : loc) (obj : worker) (c : chat)
    (prompt : string) (a : Z) (attempts : list Z) (e : exn) (st : state) :
  heap st !! w = Some obj -> w_chat_session obj = Some c ->
  remote (n_sends st) = Fail e ->
  transient e && (a <? mx - 1)%Z = false ->
  run (for_attempt remote mx bd w prompt (a :: attempts)) st
  = (Raise e, advance [] 1 [EvSendMessage c prompt] st).
Proof.
  intros Hw Hc He Ht. unfold run. cbn [for_attempt].
  unfold bind at 1, try_except, bind.
  pose proof (process_task_bound w obj c prompt st Hw Hc) as H.
  unfold run in H. rewrite H, He. unfold transient in Ht. now rewrite Ht.
Qed.

(** One attempt that succeeds: [break]. *)
Lemma for_attempt_break (mx bd : Z) (w : loc) (obj : worker) (c : chat)
    (prompt : string) (a : Z) (attempts : list Z) (t : option string)
    (st : state) :
  heap st !! w = Some obj -> w_chat_session obj = Some c ->
  remote (n_sends st) = Reply t ->
  run (for_attempt remote mx bd w prompt (a :: attempts)) st
  = (Return t, advance [] 1 [EvSendMessage c prompt] st).
Proof.
  intros Hw Hc He. unfold run. cbn [for_attempt].
  unfold bind at 1, try_except, bind.
  pose proof (process_task_bound w obj c prompt st Hw Hc) as H.
  unfold run in H. now rewrite H, He.
Qed.

(** [k] transient failures in a row, none of them on the last attempt the
    budget allows: the loop logs, waits and goes on, [k] times. *)
Lemma for_attempt_transients (mx bd : Z) (w : loc) (obj : worker) (c : chat)
    (prompt : string) (rest : list Z) :
  forall (k i : nat) (st : state),
    heap st !! w = Some obj -> w_chat_session obj = Some c ->
    (forall j, j < k ->
       exists e, remote (n_sends st + j) = Fail e /\ transient e = true) ->
    (Z.of_nat (i + k) <= mx - 1)%Z ->
    run (for_attempt remote mx bd w prompt (map Z.of_nat (seq i k) ++ rest)) st
    = run (for_attempt remote mx bd w prompt rest)
        (advance
           (map (fun j => LogRetry (bd * 2 ^ Z.of_nat j) (Py.repeat "." (S j)))
                (seq i k))
           k
           (flat_map (fun j => [EvSendMessage c prompt;
                                EvSleep (bd * 2 ^ Z.of_nat j)]) (seq i k))
           st).
Proof.
  induction k as [|k IH]; intros i st Hw Hc Hfail Hi.
  - simpl. now rewrite advance_id.
  - destruct (Hfail 0 ltac:(lia)) as (e & He & Ht).
    rewrite Nat.add_0_r in He. cbn [seq map app flat_map].
    rewrite (for_attempt_retry mx bd w obj c prompt (Z.of_nat i) _ e st
               Hw Hc He Ht ltac:(lia)).
    rewrite IH; [| exact Hw | exact Hc | | lia].
    + rewrite advance_advance.
      replace (Z.to_nat (Z.of_nat i + 1)) with (S i) by lia. reflexivity.
    + intros j Hj. destruct (Hfail (S j) ltac:(lia)) as (e' & He' & Ht').
      exists e'. split; [|exact Ht']. simpl.
      now replace (n_sends st + 1 + j) with (n_sends st + S j) by lia.
Qed.

Lemma attempts_trace_flat_map (c : chat) (prompt : string) (f : nat -> Z)
    (l : list nat) :
  flat_map (fun j => [EvSendMessage c prompt; EvSleep (f j)]) l
    ++ [EvSendMessage c prompt]
  = attempts_trace c prompt (map f l).
Proof. induction l as [|j l IH]; simpl; [reflexivity | now rewrite IH]. Qed.

Lemma range_split (mx : Z) (k : nat) :
  (Z.of_nat k < mx)%Z ->
  range mx = map Z.of_nat (seq 0 k)
             ++ Z.of_nat k :: map Z.of_nat (seq (S k) (Z.to_nat mx - S k)).
Proof.
  intros Hk. unfold range.
  replace (Z.to_nat mx) with (k + S (Z.to_nat mx - S k)) at 1 by lia.
  rewrite seq_app, map_app. reflexivity.
Qed.

(** Whatever the service does, a loop on a worker with a chat session only
    sends the prompt on that session and sleeps; it leaves the store and
    the application's attributes alone. *)
Lemma for_attempt_frame (mx bd : Z) (w : loc) (obj : worker) (c : chat)
    (prompt : string) :
  forall (attempts : list Z) (st : state),
    heap st !! w = Some obj -> w_chat_session obj = Some c ->
    exists r notes n evs,
      run (for_attempt remote mx bd w prompt attempts) st
        = (r, advance notes n evs st)
      /\ Forall (fun ev => ev = EvSendMessage c prompt
                           \/ exists d, ev = EvSleep d) evs.
Proof.
  induction attempts as [|a attempts IH]; intros st Hw Hc.
  - exists (Return None), [], 0, []. rewrite advance_id. auto.
  - destruct (remote (n_sends st)) as [t|e] eqn:He.
    + exists (Return t), [], 1, [EvSendMessage c prompt]. split.
      * exact (for_attempt_break mx bd w obj c prompt a attempts t st Hw Hc He).
      * constructor; [now left | constructor].
    + destruct (transient e && (a <? mx - 1)%Z) eqn:Ht.
      * apply andb_true_iff in Ht as [Ht Ha]. apply Z.ltb_lt in Ha.
        rewrite (for_attempt_retry mx bd w obj c prompt a _ e st Hw Hc He Ht Ha).
        destruct (IH (advance
                        [LogRetry (bd * 2 ^ a) (Py.repeat "." (Z.to_nat (a + 1)))]
                        1 [EvSendMessage c prompt; EvSleep (bd * 2 ^ a)] st)
                    Hw Hc) as (r & notes & n & evs & Hrun & Hevs).
        rewrite Hrun, advance_advance. do 4 eexists. split; [reflexivity|].
        constructor; [now left|].
        constructor; [right; eauto | exact Hevs].
      * exists (Raise e), [], 1, [EvSendMessage c prompt]. split.
        -- exact (for_attempt_raise mx bd w obj c prompt a attempts e st
                    Hw Hc He Ht).
        -- constructor; [now left | constructor].
Qed.

(** A worker leaves the state its coroutine leaves, and always returns. *)
Lemma work_run {A : Type} (coroutine : M A) (st : state) :
  work coroutine st = (Return tt, snd (coroutine st)).
Proof.
  unfold work, try_except, bind, ret.
  now destruct (coroutine st) as [[a|e] st1].
Qed.

Lemma log_write_str_run (text : string) (entry : log_entry) (st : state) :
  log_write_str markup text entry st
  = match from_markup markup text with
    | None => (Return tt, advance [entry] 0 [] st)
    | Some e => (Raise e, st)
    end.
Proof.
  unfold log_write_str. destruct (from_markup markup text); [reflexivity|].
  apply log_write_run.
Qed.

(** The rule has no bracket, so it never reaches the tag parser. *)
Lemma rule_line_renders : from_markup markup rule_line = None.
Proof.
  unfold from_markup. change (Py.str_in "[" rule_line) with false.
  reflexivity.
Qed.

(** A text without an opening bracket never reaches the tag parser. *)
Lemma from_markup_plain (text : string) :
  Py.str_in "[" text = false -> from_markup markup text = None.
Proof. intros H. unfold from_markup. now rewrite H. Qed.

(** The [try / except / finally] around the loop shows what the loop ended
    with, as far as the log takes the lines, and resets the status label. *)
Lemma retry_block_of_loop (mx bd : Z) (w : loc) (prompt : string)
    (st st1 : state) (r : result (option string)) :
  run (for_attempt remote mx bd w prompt (range mx)) st = (r, st1) ->
  run (retry_block remote markup mx bd w prompt) st
  = (fst (block_ending markup r),
     set_status "WAITING" None
       (advance (snd (block_ending markup r)) 0 [] st1)).
Proof.
  unfold run, retry_block, try_finally, try_except, bind, block_ending.
  intros ->.
  destruct r as [t|e]; rewrite ?log_write_str_run.
  - destruct (from_markup markup (result_line t)) as [e|].
    + rewrite log_write_str_run.
      destruct (from_markup markup (error_line e)); cbn;
        now rewrite ?advance_id.
    + rewrite log_write_str_run, rule_line_renders, advance_advance.
      reflexivity.
  - destruct (from_markup markup (error_line e)); cbn; now rewrite ?advance_id.
Qed.

(** The whole retry block in terms of what its loop does from the state
    where the worker has its chat session. *)
Lemma retry_block_run (mx bd : Z) (w : loc) (obj : worker) (prompt : string)
    (st : state) (r : result (option string)) (notes : list log_entry)
    (n : nat) (evs : list event) :
  heap st !! w = Some obj -> (1 <= mx)%Z ->
  run (for_attempt remote mx bd w prompt (range mx)) (with_chat w obj st)
    = (r, advance notes n evs (with_chat w obj st)) ->
  let st' := exec (retry_block remote markup mx bd w prompt) st in
  run (retry_block remote markup mx bd w prompt) st
    = (fst (block_ending markup r), st')
  /\ n_sends st' = n_sends st + n
  /\ trace st' = trace st ++ chat_creation st obj ++ evs
  /\ chat_log st' = chat_log st ++ notes ++ snd (block_ending markup r)
  /\ current_worker st' = current_worker st
  /\ current_model_name st' = current_model_name st
  /\ heap st' = heap (with_chat w obj st)
  /\ next_chat st' = next_chat (with_chat w obj st).
Proof.
  intros Hw Hmx Hloop st'.
  assert (run (retry_block remote markup mx bd w prompt) st
          = (fst (block_ending markup r),
             set_status "WAITING" None
               (advance (notes ++ snd (block_ending markup r)) n evs
                  (with_chat w obj st)))) as Hrun.
  { erewrite retry_block_of_loop.
    - rewrite advance_advance, Nat.add_0_r, app_nil_r. reflexivity.
    - rewrite (range_split mx 0) by lia. cbn [seq map app].
      rewrite (for_attempt_with_chat mx bd w obj prompt _ _ st Hw).
      rewrite (range_split mx 0) in Hloop by lia. exact Hloop. }
  subst st'. unfold exec, run. unfold run in Hrun. rewrite Hrun.
  destruct (with_chat_frame w obj st) as (Hn & Hl & Hcw & Hcm).
  cbn. rewrite Hn, Hl, Hcw, Hcm, with_chat_trace, <- !app_assoc.
  repeat split; reflexivity.
Qed.

(** What the loop does from a state that holds the worker, in terms of
    what it does once the worker has its chat session. *)
Lemma for_attempt_from (mx bd : Z) (w : loc) (obj : worker) (prompt : string)
    (st : state) (r : result (option string)) (notes : list log_entry)
    (n : nat) (evs : list event) :
  heap st !! w = Some obj -> (1 <= mx)%Z ->
  run (for_attempt remote mx bd w prompt (range mx)) (with_chat w obj st)
    = (r, advance notes n evs (with_chat w obj st)) ->
  exists st1,
    run (for_attempt remote mx bd w prompt (range mx)) st = (r, st1)
    /\ n_sends st1 = n_sends st + n
    /\ trace st1 = trace st ++ chat_creation st obj ++ evs
    /\ chat_log st1 = chat_log st ++ notes.
Proof.
  intros Hw Hmx Hloop. eexists. split.
  - rewrite (range_split mx 0) by lia. cbn [seq map app].
    rewrite (for_attempt_with_chat mx bd w obj prompt _ _ st Hw).
    rewrite (range_split mx 0) in Hloop by lia. exact Hloop.
  - destruct (with_chat_frame w obj st) as (Hn & Hl & _).
    cbn. rewrite Hn, Hl, with_chat_trace, <- app_assoc. auto.
Qed.

(** The ending of the block writes no retry line. *)
Lemma block_ending_no_retry (r : result (option string)) :
  Forall (fun entry => is_retry_line entry = false)
         (snd (block_ending markup r)).
Proof.
  unfold block_ending.
  destruct r as [t|e].
  - destruct (from_markup markup (result_line t)) as [e|].
    + destruct (from_markup markup (error_line e)); repeat constructor.
    + repeat constructor.
  - destruct (from_markup markup (error_line e)); repeat constructor.
Qed.

End RunFacts.

(** ** The retry loop *)

Section RetryLoop.

Import Tui.

(** C2.  With [k] transient failures, [k] below the attempt budget, and
    then an answer, the loop hands back the answer after [k + 1] transport
    attempts on the worker's chat; between them it sleeps
    [base_delay * 2 ** i] for [i = 0 .. k-1], in that order; it writes one
    retry line per failed attempt, with the wait and [i + 1] dots, and none
    for [k = 0].  The block around the loop adds no call and no retry line;
    when the log takes the line of the answer, the block ends normally with
    the answer and the rule on the log. *)
Theorem retry_succeeds_after_transients :
  forall (remote : nat -> outcome) (markup : string -> option exn)
         (mx bd : Z) (w : loc) (obj : worker)
         (prompt : string) (st : state) (k : nat) (text : option string),
    heap st !! w = Some obj ->
    (Z.of_nat k < mx)%Z ->
    (forall j, j < k ->
       exists e, remote (n_sends st + j) = Fail e /\ transient e = true) ->
    remote (n_sends st + k) = Reply text ->
    let st' := exec (retry_block remote markup mx bd w prompt) st in
    (exists st1,
       run (for_attempt remote mx bd w prompt (range mx)) st
         = (Return text, st1)
       /\ n_sends st1 = n_sends st + (k + 1)
       /\ trace st1 = trace st ++ chat_creation st obj
                      ++ attempts_trace (chat_of st obj) prompt (backoff bd k)
       /\ chat_log st1 = chat_log st ++ retry_notices bd k)
    /\ n_sends st' = n_sends st + (k + 1)
    /\ trace st' = trace st ++ chat_creation st obj
                   ++ attempts_trace (chat_of st obj) prompt (backoff bd k)
    /\ (exists tail,
          chat_log st' = chat_log st ++ retry_notices bd k ++ tail
          /\ Forall (fun entry => is_retry_line entry = false) tail)
    /\ (from_markup markup (result_line text) = None ->
          run (retry_block remote markup mx bd w prompt) st = (Return tt, st')
          /\ chat_log st' = chat_log st ++ retry_notices bd k
                            ++ [LogResult text; LogRule]).
Proof.
  intros remote markup mx bd w obj prompt st k text Hw Hk Hfail Hok st'.
  pose proof (with_chat_lookup w obj st Hw) as Hw0.
  destruct (with_chat_frame w obj st) as (Hn & _).
  assert (run (for_attempt remote mx bd w prompt (range mx)) (with_chat w obj st)
          = (Return text,
             advance (retry_notices bd k) (k + 1)
               (attempts_trace (chat_of st obj) prompt (backoff bd k))
               (with_chat w obj st))) as Hloop.
  { rewrite (range_split mx k Hk).
    rewrite (for_attempt_transients remote mx bd w _ (chat_of st obj) prompt _
               k 0 _ Hw0 eq_refl); [| now rewrite Hn | lia].
    erewrite for_attempt_break; [| exact Hw0 | reflexivity |].
    - rewrite advance_advance, app_nil_r, attempts_trace_flat_map.
      reflexivity.
    - cbn. now rewrite Hn. }
  destruct (retry_block_run remote markup mx bd w obj prompt st _ _ _ _ Hw
              ltac:(lia) Hloop)
    as (Hrun & Hsends & Htrace & Hlog & _).
  fold st' in Hrun, Hlog.
  split; [exact (for_attempt_from remote mx bd w obj prompt st _ _ _ _ Hw
                   ltac:(lia) Hloop)|].
  split; [exact Hsends|]. split; [exact Htrace|]. split.
  - eexists. split; [exact Hlog | apply block_ending_no_retry].
  - intros Hshown. unfold block_ending in Hrun, Hlog.
    rewrite Hshown in Hrun, Hlog. auto.
Qed.

(** The sample bound session, written out. *)
Example bound_state_eq :
  bound_state
  = {| current_worker := Some 0;
       current_model_name := Some "gemini-2.5-flash";
       heap := [{| w_class := HighReasoningImplementation;
                   w_model_name := "gemini-2.5-flash";
                   w_chat_session := Some 1 |}];
       chat_log := [LogInit; LogRouting; LogRoutedTo "gemini-2.5-flash";
                    LogResult (Some "Hello"); LogRule];
       model_status := "WAITING"; status_background := None;
       user_input := ""; input_focused := true;
       next_chat := 2; n_sends := 2;
       trace := [EvCreateChat "gemini-2.0-flash-lite-preview-02-05" 0;
                 EvSendMessage 0 (router_prompt "hello");
                 EvCreateChat "gemini-2.5-flash" 1;
                 EvSendMessage 1 "hello"] |}.
Proof. reflexivity. Qed.

(** A budget of three attempts, base delay 1: two transient failures, then
    OK, seen after waits of 1 and 2. *)
Example three_attempts_scenario :
  let remote := scripted [Reply (Some "HEAVY"); Reply (Some "Hello");
                          Fail e503; Fail e503] (Reply (Some "OK")) in
  let st' := exec (retry_block remote refuse_tags 3 1 0 "again") bound_state in
  new_events bound_state st'
    = [EvSendMessage 1 "again"; EvSleep 1; EvSendMessage 1 "again"; EvSleep 2;
       EvSendMessage 1 "again"]
  /\ last (chat_log st') = Some LogRule
  /\ chat_log st' !! 7 = Some (LogResult (Some "OK")).
Proof. repeat split; reflexivity. Qed.

(** The source's own budget, on a bound session: two failures with 503,
    then OK; waits of 1 and 2, two retry lines, three attempts. *)
Lemma retry_succeeds_after_transients_witness :
  let remote := scripted [Reply (Some "HEAVY"); Reply (Some "Hello");
                          Fail e503; Fail e503] (Reply (Some "OK")) in
  let st' := exec (retry_block remote refuse_tags max_retries base_delay 0
                     "again") bound_state in
  run (retry_block remote refuse_tags max_retries base_delay 0 "again")
      bound_state = (Return tt, st')
  /\ n_sends st' = n_sends bound_state + 3
  /\ trace st' = trace bound_state
                 ++ [EvSendMessage 1 "again"; EvSleep 1;
                     EvSendMessage 1 "again"; EvSleep 2;
                     EvSendMessage 1 "again"]
  /\ chat_log st' = chat_log bound_state
                    ++ [LogRetry 1 "."; LogRetry 2 ".."]
                    ++ [LogResult (Some "OK"); LogRule].
Proof.
  intros remote st'.
  assert (heap bound_state !! 0
          = Some {| w_class := HighReasoningImplementation;
                    w_model_name := "gemini-2.5-flash";
                    w_chat_session := Some 1 |}) as Hw by reflexivity.
  assert (Z.of_nat 2 < max_retries)%Z as Hk by (vm_compute; reflexivity).
  assert (forall j, j < 2 ->
            exists e, remote (n_sends bound_state + j) = Fail e
                      /\ transient e = true) as Hfail.
  { intros j Hj. exists e503.
    destruct j as [|[|j]]; [split; reflexivity | split; reflexivity | lia]. }
  destruct (retry_succeeds_after_transients remote refuse_tags max_retries
              base_delay 0 _ "again" bound_state 2 (Some "OK") Hw Hk Hfail
              eq_refl)
    as (_ & Hsends & Htrace & _ & Hshown).
  destruct (Hshown eq_refl) as [Hrun Hlog].
  split; [exact Hrun|]. split; [exact Hsends|]. split; [exact Htrace|].
  exact Hlog.
Defined.

(** C3.  Whatever the budget, a first attempt that fails with an error
    that is not transient ends the loop at once with that error: one
    transport attempt, no sleep, no retry line.  The block around the loop
    adds no call; when the log takes the error line, the block ends with
    that error reported. *)
Theorem fatal_first_attempt_is_final :
  forall (remote : nat -> outcome) (markup : string -> option exn)
         (mx bd : Z) (w : loc) (obj : worker)
         (prompt : string) (st : state) (e : exn),
    heap st !! w = Some obj ->
    (1 <= mx)%Z ->
    remote (n_sends st) = Fail e ->
    transient e = false ->
    let st' := exec (retry_block remote markup mx bd w prompt) st in
    (exists st1,
       run (for_attempt remote mx bd w prompt (range mx)) st = (Raise e, st1)
       /\ n_sends st1 = n_sends st + 1
       /\ trace st1 = trace st ++ chat_creation st obj
                      ++ [EvSendMessage (chat_of st obj) prompt]
       /\ chat_log st1 = chat_log st)
    /\ n_sends st' = n_sends st + 1
    /\ trace st' = trace st ++ chat_creation st obj
                   ++ [EvSendMessage (chat_of st obj) prompt]
    /\ (exists tail,
          chat_log st' = chat_log st ++ tail
          /\ Forall (fun entry => is_retry_line entry = false) tail)
    /\ (from_markup markup (error_line e) = None ->
          run (retry_block remote markup mx bd w prompt) st = (Return tt, st')
          /\ chat_log st' = chat_log st ++ [LogError e]
          /\ reported_failure st' = Some e).
Proof.
  intros remote markup mx bd w obj prompt st e Hw Hmx He Ht st'.
  pose proof (with_chat_lookup w obj st Hw) as Hw0.
  destruct (with_chat_frame w obj st) as (Hn & _).
  assert (run (for_attempt remote mx bd w prompt (range mx)) (with_chat w obj st)
          = (Raise e,
             advance [] 1 [EvSendMessage (chat_of st obj) prompt]
               (with_chat w obj st))) as Hloop.
  { rewrite (range_split mx 0) by lia. cbn [seq map app].
    eapply for_attempt_raise; [exact Hw0 | reflexivity | now rewrite Hn |].
    now rewrite Ht. }
  destruct (retry_block_run remote markup mx bd w obj prompt st _ _ _ _ Hw Hmx
              Hloop)
    as (Hrun & Hsends & Htrace & Hlog & _).
  fold st' in Hrun, Hlog. cbn [app] in Hlog.
  destruct (for_attempt_from remote mx bd w obj prompt st _ _ _ _ Hw Hmx Hloop)
    as (st1 & Hl1 & Hn1 & Ht1 & Hc1).
  rewrite app_nil_r in Hc1.
  split; [exists st1; auto|].
  split; [exact Hsends|]. split; [exact Htrace|]. split.
  - eexists. split; [exact Hlog | apply block_ending_no_retry].
  - intros Hshown. unfold block_ending in Hrun, Hlog.
    rewrite Hshown in Hrun, Hlog. cbn [fst snd] in Hrun, Hlog.
    split; [exact Hrun|]. split; [exact Hlog|].
    unfold reported_failure. now rewrite Hlog, last_snoc.
Qed.

(** A rejected credential on a bound session, budget of the source. *)
Lemma fatal_first_attempt_is_final_witness :
  let remote := scripted [Reply (Some "HEAVY"); Reply (Some "Hello")]
                  (Fail e401) in
  let st' := exec (retry_block remote refuse_tags max_retries base_delay 0
                     "again") bound_state in
  run (retry_block remote refuse_tags max_retries base_delay 0 "again")
      bound_state = (Return tt, st')
  /\ n_sends st' = n_sends bound_state + 1
  /\ trace st' = trace bound_state ++ [EvSendMessage 1 "again"]
  /\ chat_log st' = chat_log bound_state ++ [LogError e401]
  /\ reported_failure st' = Some e401.
Proof.
  intros remote st'.
  assert (heap bound_state !! 0
          = Some {| w_class := HighReasoningImplementation;
                    w_model_name := "gemini-2.5-flash";
                    w_chat_session := Some 1 |}) as Hw by reflexivity.
  assert (1 <= max_retries)%Z as Hmx by (vm_compute; discriminate).
  destruct (fatal_first_attempt_is_final remote refuse_tags max_retries
              base_delay 0 _ "again" bound_state e401 Hw Hmx eq_refl eq_refl)
    as (_ & Hsends & Htrace & _ & Hshown).
  destruct (Hshown eq_refl) as (Hrun & Hlog & Hrep).
  split; [exact Hrun|]. split; [exact Hsends|]. split; [exact Htrace|].
  split; [exact Hlog | exact Hrep].
Defined.

(** C4, as the code has it.  When every attempt fails with a transient
    error, the loop makes [max_retries] transport attempts, waits and
    writes a retry line after each but the last, and ends with the error
    of the last attempt itself.  The block around the loop adds no call and
    no retry line; when the log takes the error line, that error is what
    the block reports. *)
Theorem retry_exhaustion_reports_last_error :
  forall (remote : nat -> outcome) (markup : string -> option exn)
         (mx bd : Z) (w : loc) (obj : worker)
         (prompt : string) (st : state) (errs : nat -> exn),
    heap st !! w = Some obj ->
    (1 <= mx)%Z ->
    (forall j, j < Z.to_nat mx ->
       remote (n_sends st + j) = Fail (errs j) /\ transient (errs j) = true) ->
    let st' := exec (retry_block remote markup mx bd w prompt) st in
    let last_attempt := Z.to_nat mx - 1 in
    (exists st1,
       run (for_attempt remote mx bd w prompt (range mx)) st
         = (Raise (errs last_attempt), st1)
       /\ n_sends st1 = n_sends st + Z.to_nat mx
       /\ trace st1 = trace st ++ chat_creation st obj
                      ++ attempts_trace (chat_of st obj) prompt
                           (backoff bd last_attempt)
       /\ chat_log st1 = chat_log st ++ retry_notices bd last_attempt)
    /\ n_sends st' = n_sends st + Z.to_nat mx
    /\ trace st' = trace st ++ chat_creation st obj
                   ++ attempts_trace (chat_of st obj) prompt
                        (backoff bd last_attempt)
    /\ (exists tail,
          chat_log st' = chat_log st ++ retry_notices bd last_attempt ++ tail
          /\ Forall (fun entry => is_retry_line entry = false) tail)
    /\ (from_markup markup (error_line (errs last_attempt)) = None ->
          run (retry_block remote markup mx bd w prompt) st = (Return tt, st')
          /\ chat_log st' = chat_log st ++ retry_notices bd last_attempt
                            ++ [LogError (errs last_attempt)]
          /\ reported_failure st' = Some (errs last_attempt)).
Proof.
  intros remote markup mx bd w obj prompt st errs Hw Hmx Hfail st' k.
  pose proof (with_chat_lookup w obj st Hw) as Hw0.
  destruct (with_chat_frame w obj st) as (Hn & _).
  assert (run (for_attempt remote mx bd w prompt (range mx)) (with_chat w obj st)
          = (Raise (errs k),
             advance (retry_notices bd k) (k + 1)
               (attempts_trace (chat_of st obj) prompt (backoff bd k))
               (with_chat w obj st))) as Hloop.
  { rewrite (range_split mx k) by (subst k; lia).
    rewrite (for_attempt_transients remote mx bd w _ (chat_of st obj) prompt _
               k 0 _ Hw0 eq_refl); [| | subst k; lia].
    - erewrite for_attempt_raise; [| exact Hw0 | reflexivity | |].
      + rewrite advance_advance, app_nil_r, attempts_trace_flat_map.
        reflexivity.
      + cbn. rewrite Hn. apply Hfail. subst k; lia.
      + apply andb_false_iff. right. apply Z.ltb_ge. subst k; lia.
    - intros j Hj. exists (errs j). rewrite Hn. apply Hfail. subst k; lia. }
  destruct (retry_block_run remote markup mx bd w obj prompt st _ _ _ _ Hw Hmx
              Hloop)
    as (Hrun & Hsends & Htrace & Hlog & _).
  fold st' in Hrun, Hlog, Hsends.
  destruct (for_attempt_from remote mx bd w obj prompt st _ _ _ _ Hw Hmx Hloop)
    as (st1 & Hl1 & Hn1 & Ht1 & Hc1).
  split.
  { exists st1. split; [exact Hl1|]. split; [subst k; lia|]. auto. }
  split; [rewrite Hsends; subst k; lia|]. split; [exact Htrace|]. split.
  - eexists. split; [exact Hlog | apply block_ending_no_retry].
  - intros Hshown. unfold block_ending in Hrun, Hlog.
    rewrite Hshown in Hrun, Hlog. cbn [fst snd] in Hrun, Hlog.
    split; [exact Hrun|]. split; [exact Hlog|].
    unfold reported_failure. now rewrite Hlog, app_assoc, last_snoc.
Qed.

(** The source's budget with a service that is always overloaded. *)
Lemma retry_exhaustion_reports_last_error_witness :
  let remote := scripted [Reply (Some "HEAVY"); Reply (Some "Hello")]
                  (Fail e503) in
  let st' := exec (retry_block remote refuse_tags max_retries base_delay 0
                     "again") bound_state in
  n_sends st' = n_sends bound_state + 5
  /\ chat_log st' = chat_log bound_state
                    ++ [LogRetry 1 "."; LogRetry 2 ".."; LogRetry 4 "...";
                        LogRetry 8 "...."]
                    ++ [LogError e503]
  /\ reported_failure st' = Some e503.
Proof.
  intros remote st'.
  assert (heap bound_state !! 0
          = Some {| w_class := HighReasoningImplementation;
                    w_model_name := "gemini-2.5-flash";
                    w_chat_session := Some 1 |}) as Hw by reflexivity.
  assert (1 <= max_retries)%Z as Hmx by (vm_compute; discriminate).
  assert (forall j, j < Z.to_nat max_retries ->
            remote (n_sends bound_state + j) = Fail e503
            /\ transient e503 = true) as Hfail.
  { intros j Hj. split; vm_compute; reflexivity. }
  destruct (retry_exhaustion_reports_last_error remote refuse_tags max_retries
              base_delay 0 _ "again" bound_state (fun _ => e503) Hw Hmx Hfail)
    as (_ & H1 & _ & _ & Hshown).
  destruct (Hshown eq_refl) as (_ & H2 & H3).
  repeat split; assumption.
Defined.

(** C4 as worded fails: on this run the failure reported after the fifth
    attempt is the transport's own last error, not another cause. *)
Lemma retry_exhausted_cause_counterexample :
  let remote := scripted [Reply (Some "HEAVY"); Reply (Some "Hello")]
                  (Fail e503) in
  let st' := exec (process_user_request default_settings remote refuse_tags
                     "again") bound_state in
  n_sends st' = n_sends bound_state + 5
  /\ remote (n_sends bound_state + 4) = Fail e503
  /\ ~ spec_retry_exhausted e503 st'.
Proof.
  split; [reflexivity|]. split; [reflexivity|].
  intros (cause & Hrep & Hne). vm_compute in Hrep.
  injection Hrep as <-. now apply Hne.
Qed.

End RetryLoop.

(** ** Sticky routing *)

Section StickyRouting.

Import Tui.
Variable settings : AppSettings.
Variable remote : nat -> outcome.
Variable markup : string -> option exn.

Lemma new_events_app (st st' : state) (evs : list event) :
  trace st' = trace st ++ evs -> new_events st st' = evs.
Proof. intros H. unfold new_events. rewrite H. apply drop_app_length. Qed.

(** On a bound session the first part of [process_user_request] hands back
    the stored worker and model name, and does nothing else. *)
Lemma resolve_worker_bound (prompt : string) (st : state) (w : loc) :
  current_worker st = Some w ->
  run (resolve_worker settings remote prompt) st
  = (Return (w, current_model_name st), st).
Proof.
  intros Hcw. unfold run, resolve_worker, bind, gets. now rewrite Hcw.
Qed.

(** On an unbound session it asks the picker, makes a worker without a chat
    session and stores it. *)
Lemma resolve_worker_unbound (prompt : string) (st : state) :
  current_worker st = None ->
  exists obj,
    w_chat_session obj = None
    /\ run (resolve_worker settings remote prompt) st
       = (Return (length (heap st), Some (w_model_name obj)),
          {| current_worker := Some (length (heap st));
             current_model_name := Some (w_model_name obj);
             heap := heap st ++ [obj];
             chat_log := chat_log st ++ [LogRouting; LogRoutedTo (w_model_name obj)];
             model_status := model_status st;
             status_background := status_background st;
             user_input := user_input st;
             input_focused := input_focused st;
             next_chat := S (next_chat st);
             n_sends := S (n_sends st);
             trace := trace st
                      ++ [EvCreateChat (picker_model settings) (next_chat st);
                          EvSendMessage (next_chat st) (router_prompt prompt)] |}).
Proof.
  intros Hcw.
  pose proof (route_logic_run settings remote prompt
                (snd (log_write LogRouting st))) as Hroute.
  cbv zeta in Hroute.
  match type of Hroute with
  | context [set_heap (_ ++ [?o])] => exists o
  end.
  split; [now destruct (Py.str_in _ _)|].
  unfold run, resolve_worker, bind at 1, gets. rewrite Hcw.
  unfold bind at 1. unfold run in Hroute.
  unfold bind at 1. cbn [log_write modify snd] in Hroute |- *.
  rewrite Hroute. cbn. now rewrite <- app_assoc.
Qed.

(** A request on a bound session with a live chat: nothing but sends of
    the prompt on that chat and sleeps; binding and store stay as they
    are; the log gets retry lines and then the answer or the error. *)
Lemma process_user_request_bound (prompt : string) (st : state) (w : loc)
    (obj : worker) (c : chat) :
  current_worker st = Some w ->
  heap st !! w = Some obj -> w_chat_session obj = Some c ->
  exists r notes n evs,
    let st' := exec (process_user_request settings remote markup prompt) st in
    run (process_user_request settings remote markup prompt) st
      = (fst (block_ending markup r), st')
    /\ trace st' = trace st ++ evs
    /\ Forall (fun ev => ev = EvSendMessage c prompt
                         \/ exists d, ev = EvSleep d) evs
    /\ n_sends st' = n_sends st + n
    /\ chat_log st' = chat_log st ++ notes ++ snd (block_ending markup r)
    /\ current_worker st' = Some w
    /\ current_model_name st' = current_model_name st
    /\ heap st' = heap st
    /\ next_chat st' = next_chat st.
Proof.
  intros Hcw Hw Hc.
  assert (with_chat w obj st = st) as Hwc by (unfold with_chat; now rewrite Hc).
  destruct (for_attempt_frame remote max_retries base_delay w obj c prompt
              (range max_retries) st Hw Hc) as (r & notes & n & evs & Hloop & Hevs).
  exists r, notes, n, evs. intros st'.
  rewrite <- Hwc in Hloop.
  destruct (retry_block_run remote markup max_retries base_delay w obj prompt st
              r notes n evs Hw ltac:(vm_compute; discriminate) Hloop)
    as (Hrun & Hsends & Htrace & Hlog & Hcw' & Hcm' & Hheap & Hnc).
  assert (run (process_user_request settings remote markup prompt) st
          = run (retry_block remote markup max_retries base_delay w prompt) st) as Heq.
  { unfold run, process_user_request, bind.
    pose proof (resolve_worker_bound prompt st w Hcw) as Hres.
    unfold run in Hres. now rewrite Hres. }
  subst st'. unfold exec. unfold run in Heq. rewrite Heq.
  unfold exec in *. unfold chat_creation in Htrace. rewrite Hc in Htrace.
  rewrite Hwc in Hheap, Hnc. rewrite Hcw in Hcw'.
  unfold run. rewrite Heq. repeat split; assumption.
Qed.

(** The first request of a session: the picker is asked about the prompt
    on a chat of its own, a new worker object is stored and gets the next
    chat, and only then does the transport see the prompt. *)
Lemma process_user_request_unbound (prompt : string) (st : state) :
  current_worker st = None ->
  exists obj evs,
    let st' := exec (process_user_request settings remote markup prompt) st in
    (exists res,
       run (process_user_request settings remote markup prompt) st = (res, st'))
    /\ trace st' = trace st
                   ++ [EvCreateChat (picker_model settings) (next_chat st);
                       EvSendMessage (next_chat st) (router_prompt prompt);
                       EvCreateChat (w_model_name obj) (S (next_chat st))]
                   ++ evs
    /\ Forall (fun ev => ev = EvSendMessage (S (next_chat st)) prompt
                         \/ exists d, ev = EvSleep d) evs
    /\ current_worker st' = Some (length (heap st))
    /\ current_model_name st' = Some (w_model_name obj)
    /\ heap st' = heap st ++ [obj]
    /\ w_chat_session obj = Some (S (next_chat st))
    /\ next_chat st' = S (S (next_chat st)).
Proof.
  intros Hcw.
  destruct (resolve_worker_unbound prompt st Hcw) as (obj0 & Hnone & Hres).
  remember (snd (run (resolve_worker settings remote prompt) st)) as st1 eqn:E.
  rewrite Hres in E. cbn [snd] in E.
  assert (Htr1 : trace st1 = trace st
                 ++ [EvCreateChat (picker_model settings) (next_chat st);
                     EvSendMessage (next_chat st) (router_prompt prompt)])
    by now subst st1.
  assert (Hhp1 : heap st1 = heap st ++ [obj0]) by now subst st1.
  assert (Hnc1 : next_chat st1 = S (next_chat st)) by now subst st1.
  assert (Hcw1 : current_worker st1 = Some (length (heap st))) by now subst st1.
  assert (Hcm1 : current_model_name st1 = Some (w_model_name obj0))
    by now subst st1.
  rewrite <- E in Hres. clear E.
  assert (Hw1 : heap st1 !! length (heap st) = Some obj0).
  { rewrite Hhp1. apply list_lookup_middle. reflexivity. }
  assert (Hchat : chat_of st1 obj0 = S (next_chat st)).
  { unfold chat_of. now rewrite Hnone, Hnc1. }
  pose proof (with_chat_lookup _ _ _ Hw1) as Hw2.
  destruct (for_attempt_frame remote max_retries base_delay (length (heap st))
              _ (chat_of st1 obj0) prompt (range max_retries)
              (with_chat (length (heap st)) obj0 st1) Hw2 eq_refl)
    as (r & notes & n & evs & Hloop & Hevs).
  destruct (retry_block_run remote markup max_retries base_delay (length (heap st))
              obj0 prompt st1 r notes n evs Hw1
              ltac:(vm_compute; discriminate) Hloop)
    as (Hrun & Hsends & Htrace & Hlog & Hcw' & Hcm' & Hheap & Hnc).
  assert (run (process_user_request settings remote markup prompt) st
          = run (retry_block remote markup max_retries base_delay (length (heap st))
                   prompt) st1) as Heq.
  { unfold run, process_user_request, bind. unfold run in Hres.
    now rewrite Hres. }
  exists (with_session st1 obj0), evs. intros st'.
  assert (st' = exec (retry_block remote markup max_retries base_delay
                        (length (heap st)) prompt) st1) as ->.
  { subst st'. unfold exec. unfold run in Heq. now rewrite Heq. }
  rewrite Heq. rewrite Hchat in Hevs.
  assert (exists res,
            run (retry_block remote markup max_retries base_delay
                   (length (heap st)) prompt) st1
            = (res,
               exec (retry_block remote markup max_retries base_delay
                       (length (heap st)) prompt) st1)) as Hrun'
    by eauto.
  clear Hrun. rename Hrun' into Hrun.
  unfold chat_creation in Htrace. rewrite Hnone, Htr1, Hnc1 in Htrace.
  unfold with_chat in Hheap, Hnc. rewrite Hnone in Hheap, Hnc.
  cbn [heap set_heap next_chat set_world] in Hheap, Hnc.
  rewrite Hnc1 in Hnc. rewrite Hhp1 in Hheap.
  rewrite Hcw1 in Hcw'. rewrite Hcm1 in Hcm'.
  repeat split; try assumption.
  - rewrite Htrace, <- !app_assoc. reflexivity.
  - rewrite Hheap, insert_app_r_alt by reflexivity.
    now rewrite Nat.sub_diag.
  - cbn. now rewrite Hchat.
Qed.

Lemma action_new_session_run (st : state) :
  run action_new_session st
  = (Return tt,
     {| current_worker := None; current_model_name := None;
        heap := heap st; chat_log := [LogReset];
        model_status := model_status st;
        status_background := status_background st;
        user_input := user_input st; input_focused := true;
        next_chat := next_chat st; n_sends := n_sends st;
        trace := trace st |}).
Proof. reflexivity. Qed.

Lemma wf_initial_state : wf initial_state.
Proof.
  split.
  - intros w Hw. discriminate.
  - intros w obj c Hw. cbn in Hw. discriminate.
Qed.

Lemma wf_action_new_session (st : state) :
  wf st -> wf (exec action_new_session st).
Proof.
  intros [_ Hchats]. unfold exec. rewrite action_new_session_run. split.
  - intros w Hw. discriminate.
  - exact Hchats.
Qed.

(** The invariant holds again when a request has run to its end. *)
Lemma wf_process_user_request (prompt : string) (st : state) :
  wf st -> wf (exec (process_user_request settings remote markup prompt) st).
Proof.
  intros [Hbound Hchats].
  destruct (current_worker st) as [w|] eqn:Hcw.
  - destruct (Hbound w eq_refl) as (obj & c & Hw & Hc).
    destruct (process_user_request_bound prompt st w obj c Hcw Hw Hc)
      as (r & notes & n & evs & _ & _ & _ & _ & _ & Hcw' & _ & Hheap & Hnc).
    split.
    + intros w' Hw'. rewrite Hcw' in Hw'. injection Hw' as <-.
      exists obj, c. now rewrite Hheap.
    + intros w' obj' c'. rewrite Hheap, Hnc. apply Hchats.
  - destruct (process_user_request_unbound prompt st Hcw)
      as (obj & evs & _ & _ & _ & Hcw' & _ & Hheap & Hc & Hnc).
    split.
    + intros w' Hw'. rewrite Hcw' in Hw'. injection Hw' as <-.
      exists obj, (S (next_chat st)). rewrite Hheap.
      split; [now apply list_lookup_middle | exact Hc].
    + intros w' obj' c' Hw' Hc'. rewrite Hnc. rewrite Hheap in Hw'.
      apply lookup_app_Some in Hw' as [Hw' | [_ Hw']].
      * pose proof (Hchats w' obj' c' Hw' Hc'). lia.
      * apply list_lookup_singleton_Some in Hw' as [_ <-].
        rewrite Hc in Hc'. injection Hc' as <-. lia.
Qed.

End StickyRouting.

Section Sessions.

Import Tui.

(** The sample bound session is one of the states the invariant covers. *)
Lemma wf_bound_state : wf bound_state.
Proof.
  split.
  - intros w Hw. vm_compute in Hw. injection Hw as <-.
    eexists _, 1. split; reflexivity.
  - intros [|w] obj c Hw Hc; vm_compute in Hw; [|discriminate].
    injection Hw as <-. vm_compute in Hc. injection Hc as <-.
    vm_compute. lia.
Qed.

Lemma bound_state_worker :
  current_worker bound_state = Some 0
  /\ heap bound_state !! 0
     = Some {| w_class := HighReasoningImplementation;
               w_model_name := "gemini-2.5-flash";
               w_chat_session := Some 1 |}.
Proof. split; reflexivity. Qed.

(** C1.  Handling a prompt asks the classifier exactly when the session is
    unbound.  On a bound session the stored worker and model name are
    handed back as they are, the worker object and its chat session stay
    the same, and every message sent is the prompt on that chat.  After
    [action_new_session] the session is unbound, the next prompt asks the
    classifier again, and the binding it makes is a new worker object with
    a chat session no earlier worker had. *)
Theorem sticky_routing :
  forall (settings : AppSettings) (remote : nat -> outcome)
    (markup : string -> option exn) (st : state)
         (prompt : string),
    wf st ->
    let st' := exec (process_user_request settings remote markup prompt) st in
    (classifier_invoked settings prompt (new_events st st')
     <-> current_worker st = None)
    /\ (forall w obj,
          current_worker st = Some w -> heap st !! w = Some obj ->
          run (resolve_worker settings remote prompt) st
            = (Return (w, current_model_name st), st)
          /\ current_worker st' = Some w
          /\ current_model_name st' = current_model_name st
          /\ heap st' !! w = Some obj
          /\ forall c text,
               EvSendMessage c text ∈ new_events st st' ->
               w_chat_session obj = Some c /\ text = prompt)
    /\ (forall prompt',
          let st0 := exec action_new_session st in
          let st1 := exec (process_user_request settings remote markup prompt') st0 in
          current_worker st0 = None
          /\ classifier_invoked settings prompt' (new_events st0 st1)
          /\ exists w' obj' c',
               current_worker st1 = Some w'
               /\ heap st1 !! w' = Some obj'
               /\ heap st !! w' = None
               /\ w_chat_session obj' = Some c'
               /\ forall w obj c,
                    heap st !! w = Some obj -> w_chat_session obj = Some c ->
                    c <> c').
Proof.
  intros settings remote markup st prompt Hwf st'.
  destruct Hwf as [Hbound Hchats]. split; [|split].
  - destruct (current_worker st) as [w|] eqn:Hcw.
    + destruct (Hbound w eq_refl) as (obj & c & Hw & Hc).
      destruct (process_user_request_bound settings remote markup prompt st w obj c
                  Hcw Hw Hc)
        as (r & notes & n & evs & _ & Htrace & Hevs & _).
      rewrite (new_events_app st st' evs Htrace). split; [|discriminate].
      intros (c0 & Hcreate & _). exfalso.
      rewrite Forall_forall in Hevs.
      destruct (Hevs _ Hcreate) as [H | [d H]]; discriminate.
    + destruct (process_user_request_unbound settings remote markup prompt st Hcw)
        as (obj & evs & _ & Htrace & _).
      rewrite (new_events_app st st' _ Htrace). split; [reflexivity|].
      intros _. exists (next_chat st). split.
      * apply elem_of_app. left. apply elem_of_cons. now left.
      * apply elem_of_app. left. apply elem_of_cons. right.
        apply elem_of_cons. now left.
  - intros w obj Hcw Hw.
    destruct (Hbound w Hcw) as (obj' & c & Hw' & Hc).
    rewrite Hw in Hw'. injection Hw' as <-.
    destruct (process_user_request_bound settings remote markup prompt st w obj c
                Hcw Hw Hc)
      as (r & notes & n & evs & _ & Htrace & Hevs & _ & _ & Hcw' & Hcm' & Hheap & _).
    split; [now apply resolve_worker_bound|].
    split; [exact Hcw'|]. split; [exact Hcm'|].
    fold st' in Hheap. split; [now rewrite Hheap|].
    intros c0 text Hin. rewrite (new_events_app st st' evs Htrace) in Hin.
    rewrite Forall_forall in Hevs.
    destruct (Hevs _ Hin) as [H | [d H]]; [|discriminate].
    injection H as -> ->. auto.
  - intros prompt' st0 st1.
    assert (Hcw0 : current_worker st0 = None) by reflexivity.
    split; [exact Hcw0|].
    destruct (process_user_request_unbound settings remote markup prompt' st0 Hcw0)
      as (obj & evs & _ & Htrace & _ & Hcw1 & _ & Hheap & Hc & _).
    fold st1 in Htrace, Hcw1, Hheap. split.
    + rewrite (new_events_app st0 st1 _ Htrace). exists (next_chat st0). split.
      * apply elem_of_app. left. apply elem_of_cons. now left.
      * apply elem_of_app. left. apply elem_of_cons. right.
        apply elem_of_cons. now left.
    + exists (length (heap st)), obj, (S (next_chat st)).
      change (heap st0) with (heap st) in *.
      change (next_chat st0) with (next_chat st) in *.
      split; [exact Hcw1|].
      split; [rewrite Hheap; now apply list_lookup_middle|].
      split; [now apply lookup_ge_None_2|].
      split; [exact Hc|].
      intros w obj0 c Hw0 Hc0. pose proof (Hchats w obj0 c Hw0 Hc0). lia.
Qed.

(** A second prompt on the sample bound session, then a reset. *)
Lemma sticky_routing_witness :
  let remote := scripted [Reply (Some "HEAVY"); Reply (Some "Hello")]
                  (Reply (Some "LIGHT")) in
  let st' := exec (process_user_request default_settings remote refuse_tags "again")
               bound_state in
  let st0 := exec action_new_session bound_state in
  let st1 := exec (process_user_request default_settings remote refuse_tags "hi") st0 in
  ~ classifier_invoked default_settings "again" (new_events bound_state st')
  /\ current_worker st' = Some 0
  /\ heap st' !! 0 = heap bound_state !! 0
  /\ classifier_invoked default_settings "hi" (new_events st0 st1)
  /\ current_worker st1 = Some 1.
Proof.
  intros remote st' st0 st1.
  destruct (sticky_routing default_settings remote refuse_tags bound_state "again"
              wf_bound_state) as (Hiff & Hbound & Hreset).
  destruct bound_state_worker as [Hcw Hw].
  destruct (Hbound 0 _ Hcw Hw) as (_ & Hcw' & _ & Hw' & _).
  destruct (Hreset "hi") as (_ & Hinv & _).
  split; [intros H; apply Hiff in H; discriminate|].
  split; [exact Hcw'|]. split; [exact (eq_trans Hw' (eq_sym Hw))|].
  split; [exact Hinv|]. reflexivity.
Defined.

(** C7.  A request that fails on a bound session leaves the binding as it
    was: the same worker object, the same model name, the same chat
    session.  The next prompt does not ask the classifier and goes out on
    that chat. *)
Theorem failed_request_keeps_binding :
  forall (settings : AppSettings) (remote : nat -> outcome)
    (markup : string -> option exn) (st : state)
         (prompt : string) (w : loc) (obj : worker) (c : chat),
    current_worker st = Some w ->
    heap st !! w = Some obj ->
    w_chat_session obj = Some c ->
    let st' := exec (process_user_request settings remote markup prompt) st in
    is_Some (reported_failure st') ->
    current_worker st' = Some w
    /\ current_model_name st' = current_model_name st
    /\ heap st' !! w = Some obj
    /\ forall prompt2,
         let st'' := exec (process_user_request settings remote markup prompt2) st' in
         ~ classifier_invoked settings prompt2 (new_events st' st'')
         /\ current_worker st'' = Some w
         /\ heap st'' !! w = Some obj
         /\ forall c2 text,
              EvSendMessage c2 text ∈ new_events st' st'' ->
              c2 = c /\ text = prompt2.
Proof.
  intros settings remote markup st prompt w obj c Hcw Hw Hc st' _.
  destruct (process_user_request_bound settings remote markup prompt st w obj c
              Hcw Hw Hc)
    as (r & notes & n & evs & _ & _ & _ & _ & _ & Hcw' & Hcm' & Hheap & _).
  fold st' in Hcw', Hcm', Hheap.
  assert (Hw' : heap st' !! w = Some obj) by now rewrite Hheap.
  split; [exact Hcw'|]. split; [exact Hcm'|]. split; [exact Hw'|].
  intros prompt2 st''.
  destruct (process_user_request_bound settings remote markup prompt2 st' w obj c
              Hcw' Hw' Hc)
    as (r2 & notes2 & n2 & evs2 & _ & Htrace & Hevs & _ & _ & Hcw'' & _ & Hheap'' & _).
  fold st'' in Htrace, Hcw'', Hheap''.
  rewrite (new_events_app st' st'' evs2 Htrace).
  rewrite Forall_forall in Hevs.
  split; [|split; [exact Hcw''|split; [now rewrite Hheap''|]]].
  - intros (c0 & Hcreate & _).
    destruct (Hevs _ Hcreate) as [H | [d H]]; discriminate.
  - intros c2 text Hin.
    destruct (Hevs _ Hin) as [H | [d H]]; [|discriminate].
    injection H as -> ->. auto.
Qed.

(** A rejected credential on the sample bound session, then one more
    prompt. *)
Lemma failed_request_keeps_binding_witness :
  let remote := scripted [Reply (Some "HEAVY"); Reply (Some "Hello");
                          Fail e401] (Reply (Some "OK")) in
  let st' := exec (process_user_request default_settings remote refuse_tags "again")
               bound_state in
  let st'' := exec (process_user_request default_settings remote refuse_tags "once more")
                st' in
  reported_failure st' = Some e401
  /\ current_worker st' = Some 0
  /\ heap st' !! 0 = heap bound_state !! 0
  /\ ~ classifier_invoked default_settings "once more" (new_events st' st'')
  /\ last (chat_log st'') = Some LogRule.
Proof.
  intros remote st' st''.
  destruct bound_state_worker as [Hcw Hw].
  assert (Hfail : is_Some (reported_failure st'))
    by (exists e401; reflexivity).
  destruct (failed_request_keeps_binding default_settings remote refuse_tags bound_state
              "again" 0 _ 1 Hcw Hw eq_refl Hfail)
    as (Hcw' & _ & Hw' & Hnext).
  destruct (Hnext "once more") as (Hno & _).
  split; [reflexivity|]. split; [exact Hcw'|].
  split; [exact (eq_trans Hw' (eq_sym Hw))|].
  split; [exact Hno|]. reflexivity.
Defined.

End Sessions.

(** ** The delegated classifier *)

Section Classifier.

Import Tui.

Lemma delegated_tier_eq (settings : AppSettings) (remote : nat -> outcome)
    (user_prompt : string) (st : state) :
  delegated_tier settings remote user_prompt st
  = Some (if Py.str_in "HEAVY"
               match remote (n_sends st) with
               | Reply (Some t) => Py.upper (Py.strip t)
               | _ => "HEAVY"
               end
          then HEAVY else LIGHT).
Proof.
  unfold delegated_tier. rewrite route_logic_run. cbn [fst heap set_heap].
  rewrite list_lookup_middle by reflexivity.
  now destruct (Py.str_in _ _).
Qed.

(** C6.  [route_logic] never raises.  When the call to the picker raises,
    or its response has no text, the worker handed back is a
    [HighReasoningImplementation] on the heavy model. *)
Theorem classifier_failure_falls_back_to_heavy :
  forall (settings : AppSettings) (remote : nat -> outcome)
         (user_prompt : string) (st : state),
    (exists p st',
       run (route_logic settings remote user_prompt) st = (Return p, st'))
    /\ (forall e, remote (n_sends st) = Fail e ->
          exists st',
            run (route_logic settings remote user_prompt) st
              = (Return (length (heap st), heavy_model settings), st')
            /\ heap st' !! length (heap st)
               = Some {| w_class := HighReasoningImplementation;
                         w_model_name := heavy_model settings;
                         w_chat_session := None |}
            /\ delegated_tier settings remote user_prompt st = Some HEAVY)
    /\ (remote (n_sends st) = Reply None ->
          delegated_tier settings remote user_prompt st = Some HEAVY).
Proof.
  intros settings remote user_prompt st.
  pose proof (route_logic_run settings remote user_prompt st) as Hrun.
  pose proof (delegated_tier_eq settings remote user_prompt st) as Htier.
  cbv zeta in Hrun. split; [eauto|]. split.
  - intros e He. rewrite He in Hrun, Htier.
    eexists. split; [exact Hrun|]. split; [|exact Htier].
    cbn. now apply list_lookup_middle.
  - intros He. now rewrite He in Htier.
Qed.

(** The picker is overloaded on the first prompt of a session. *)
Lemma classifier_failure_falls_back_to_heavy_witness :
  let remote := scripted [Fail e503] (Reply (Some "Hello")) in
  delegated_tier default_settings remote "hi" initial_state = Some HEAVY
  /\ fst (run (route_logic default_settings remote "hi") initial_state)
     = Return (0, "gemini-2.5-flash").
Proof.
  intros remote.
  destruct (classifier_failure_falls_back_to_heavy default_settings remote
              "hi" initial_state) as (_ & Hfail & _).
  destruct (Hfail e503 eq_refl) as (st' & Hrun & _ & Htier).
  split; [exact Htier|]. now rewrite Hrun.
Defined.

(** C5, as the code has it.  The tier is HEAVY exactly when HEAVY occurs in
    the response, case ignored, and LIGHT in every other case, so also when
    neither token occurs. *)
Theorem delegated_tier_heavy_iff_token_occurs :
  forall (settings : AppSettings) (remote : nat -> outcome)
         (user_prompt : string) (st : state) (text : string),
    remote (n_sends st) = Reply (Some text) ->
    (occurs_ci "HEAVY" text ->
       delegated_tier settings remote user_prompt st = Some HEAVY
       /\ fst (run (route_logic settings remote user_prompt) st)
          = Return (length (heap st), heavy_model settings))
    /\ (~ occurs_ci "HEAVY" text ->
          delegated_tier settings remote user_prompt st = Some LIGHT
          /\ fst (run (route_logic settings remote user_prompt) st)
             = Return (length (heap st), light_model settings)).
Proof.
  intros settings remote user_prompt st text He.
  pose proof (route_logic_run settings remote user_prompt st) as Hrun.
  pose proof (delegated_tier_eq settings remote user_prompt st) as Htier.
  cbv zeta in Hrun. rewrite He in Hrun, Htier. rewrite Hrun, Htier.
  pose proof (heavy_test_iff text) as Hiff.
  destruct (Py.str_in "HEAVY" (Py.upper (Py.strip text))); split; intros H.
  - now split.
  - exfalso. apply H, Hiff. reflexivity.
  - apply Hiff in H. discriminate.
  - now split.
Qed.

(** Answers in lower case, with white space around, and without a token. *)
Lemma delegated_tier_heavy_iff_token_occurs_witness :
  delegated_tier default_settings (scripted [Reply (Some " heavy ")] (Fail e503))
    "hi" initial_state = Some HEAVY
  /\ delegated_tier default_settings (scripted [Reply (Some "LIGHT")] (Fail e503))
       "hi" initial_state = Some LIGHT.
Proof.
  split.
  - refine (proj1 (proj1 (delegated_tier_heavy_iff_token_occurs
                            default_settings
                            (scripted [Reply (Some " heavy ")] (Fail e503))
                            "hi" initial_state " heavy " eq_refl) _)).
    exists " ", "heavy", " ". split; reflexivity.
  - refine (proj1 (proj2 (delegated_tier_heavy_iff_token_occurs
                            default_settings
                            (scripted [Reply (Some "LIGHT")] (Fail e503))
                            "hi" initial_state "LIGHT" eq_refl) _)).
    intros H. apply heavy_test_iff in H. vm_compute in H. discriminate.
Defined.

(** C5 as worded fails.  An answer with neither token gives the fast tier,
    where the wording asks for HEAVY; an answer that names LIGHT first and
    HEAVY later gives the reasoning tier, where the wording asks for the
    first token. *)
Lemma delegated_tier_first_token_counterexample :
  let neither := scripted [Reply (Some "maybe")] (Fail e503) in
  let both := scripted [Reply (Some "LIGHT, not HEAVY")] (Fail e503) in
  delegated_tier default_settings neither "hi" initial_state = Some LIGHT
  /\ spec_first_token_tier "maybe" = HEAVY
  /\ delegated_tier default_settings both "hi" initial_state = Some HEAVY
  /\ spec_first_token_tier "LIGHT, not HEAVY" = LIGHT
  /\ ~ (forall (remote : nat -> outcome) (text : string),
          remote (n_sends initial_state) = Reply (Some text) ->
          delegated_tier default_settings remote "hi" initial_state
          = Some (spec_first_token_tier text)).
Proof.
  intros neither both. repeat split; try reflexivity.
  intros H. specialize (H neither "maybe" eq_refl). vm_compute in H.
  discriminate.
Qed.

End Classifier.

(** ** Input handling *)

Section Input.

Import Tui.

(** C10.  Submitting an empty or blank line changes nothing: no log line,
    no call to the service, no new worker, the binding as before. *)
Theorem blank_input_is_ignored :
  forall (settings : AppSettings) (remote : nat -> outcome)
    (markup : string -> option exn) (st : state)
         (value : string),
    all_space value = true ->
    run (on_input_submitted settings remote markup value) st = (Return tt, st).
Proof.
  intros settings remote markup st value Hblank.
  unfold run, on_input_submitted. now rewrite (all_space_strip value Hblank).
Qed.

(** Blanks and a tab on the sample bound session, and the empty line. *)
Lemma blank_input_is_ignored_witness :
  let blank := String " " (String (ascii_of_nat 9) (String " " EmptyString)) in
  run (on_input_submitted default_settings (scripted [] (Fail e503))
        refuse_tags blank)
      bound_state = (Return tt, bound_state)
  /\ run (on_input_submitted default_settings (scripted [] (Fail e503))
        refuse_tags "")
       initial_state = (Return tt, initial_state).
Proof.
  intros blank. split.
  - apply (blank_input_is_ignored default_settings (scripted [] (Fail e503))
             refuse_tags
             bound_state blank). reflexivity.
  - apply (blank_input_is_ignored default_settings (scripted [] (Fail e503))
             refuse_tags
             initial_state ""). reflexivity.
Defined.

End Input.

(** ** The invariant along a session *)

Section Invariant.

Import Tui.

(** Every handler of the application keeps the invariant, so it holds in
    every state a session reaches from [initial_state]. *)
Lemma wf_on_input_submitted (settings : AppSettings) (remote : nat -> outcome)
    (markup : string -> option exn)
    (value : string) (st : state) :
  wf st -> wf (exec (on_input_submitted settings remote markup value) st).
Proof.
  intros Hwf. unfold exec, on_input_submitted.
  destruct (Py.is_empty (Py.strip value)); [exact Hwf|].
  unfold bind at 1. cbn [modify]. unfold bind at 1.
  rewrite log_write_run, work_run. cbn [snd].
  apply (wf_process_user_request settings remote markup (Py.strip value)).
  exact Hwf.
Qed.

Lemma reachable_wf (settings : AppSettings) (remote : nat -> outcome)
    (markup : string -> option exn)
    (st : state) :
  reachable settings remote markup st -> wf st.
Proof.
  induction 1 as [|value st _ IH|st _ IH].
  - exact wf_initial_state.
  - now apply wf_on_input_submitted.
  - now apply wf_action_new_session.
Qed.

End Invariant.

(** ** Every run of the retry block *)

Section RetryShape.

Import Tui.
Variable remote : nat -> outcome.
Variable markup : string -> option exn.

(** Whatever the service does, the loop retries some number [k] of
    transient failures and stops at the next attempt: on its answer, on an
    error that is not transient, or on the last attempt of the budget. *)
Lemma for_attempt_classify (mx bd : Z) (w : loc) (obj : worker) (c : chat)
    (prompt : string) :
  forall (m i : nat) (st : state),
    heap st !! w = Some obj -> w_chat_session obj = Some c ->
    Z.of_nat (i + S m) = mx ->
    exists k,
      k <= m
      /\ (forall j, j < k ->
            exists e, remote (n_sends st + j) = Fail e /\ transient e = true)
      /\ (forall e, remote (n_sends st + k) = Fail e ->
            transient e = false \/ k = m)
      /\ run (for_attempt remote mx bd w prompt (map Z.of_nat (seq i (S m)))) st
         = (match remote (n_sends st + k) with
            | Reply t => Return t
            | Fail e => Raise e
            end,
            advance
              (map (fun j => LogRetry (bd * 2 ^ Z.of_nat j)
                               (Py.repeat "." (S j))) (seq i k))
              (k + 1)
              (flat_map (fun j => [EvSendMessage c prompt;
                                   EvSleep (bd * 2 ^ Z.of_nat j)]) (seq i k)
               ++ [EvSendMessage c prompt])
              st).
Proof.
  induction m as [|m IH]; intros i st Hw Hc Hmx.
  - exists 0. rewrite Nat.add_0_r. split; [lia|]. split; [intros j Hj; lia|].
    split; [auto|]. cbn [seq map flat_map app].
    destruct (remote (n_sends st)) as [t|e] eqn:He.
    + exact (for_attempt_break remote mx bd w obj c prompt _ _ t st Hw Hc He).
    + apply (for_attempt_raise remote mx bd w obj c prompt _ _ e st Hw Hc He).
      apply andb_false_iff. right. apply Z.ltb_ge. lia.
  - destruct (remote (n_sends st)) as [t|e] eqn:He.
    + exists 0. rewrite Nat.add_0_r, He. split; [lia|].
      split; [intros j Hj; lia|]. split; [discriminate|].
      exact (for_attempt_break remote mx bd w obj c prompt _ _ t st Hw Hc He).
    + destruct (transient e) eqn:Ht.
      * change (map Z.of_nat (seq i (S (S m))))
          with (Z.of_nat i :: map Z.of_nat (seq (S i) (S m))).
        rewrite (for_attempt_retry remote mx bd w obj c prompt (Z.of_nat i) _ e
                   st Hw Hc He Ht ltac:(lia)).
        destruct (IH (S i)
                    (advance [LogRetry (bd * 2 ^ Z.of_nat i)
                                (Py.repeat "." (Z.to_nat (Z.of_nat i + 1)))] 1
                       [EvSendMessage c prompt; EvSleep (bd * 2 ^ Z.of_nat i)]
                       st) Hw Hc ltac:(lia))
          as (k & Hk & Hfail & Hstop & Hrun).
        cbn [n_sends advance set_chat_log set_world] in Hfail, Hstop, Hrun.
        exists (S k). split; [lia|]. split; [|split].
        -- intros [|j] Hj.
           ++ exists e. now rewrite Nat.add_0_r.
           ++ destruct (Hfail j ltac:(lia)) as (e' & He' & Ht').
              exists e'. split; [|exact Ht'].
              now replace (n_sends st + S j) with (n_sends st + 1 + j) by lia.
        -- intros e' He'.
           replace (n_sends st + S k) with (n_sends st + 1 + k) in He' by lia.
           destruct (Hstop e' He'); [now left | right; lia].
        -- rewrite Hrun, advance_advance.
           replace (n_sends st + S k) with (n_sends st + 1 + k) by lia.
           replace (Z.to_nat (Z.of_nat i + 1)) with (S i) by lia.
           reflexivity.
      * exists 0. rewrite Nat.add_0_r, He. split; [lia|].
        split; [intros j Hj; lia|]. split; [intros e' [= <-]; now left|].
        apply (for_attempt_raise remote mx bd w obj c prompt _ _ e st Hw Hc He).
        now rewrite Ht.
Qed.

(** The same for the loop over the whole range, from any state that holds
    the worker. *)
Lemma loop_classify (mx bd : Z) (w : loc) (obj : worker)
    (prompt : string) (st : state) :
  heap st !! w = Some obj -> (1 <= mx)%Z ->
  exists k,
    (Z.of_nat k < mx)%Z
    /\ (forall j, j < k ->
          exists e, remote (n_sends st + j) = Fail e /\ transient e = true)
    /\ (forall e, remote (n_sends st + k) = Fail e ->
          transient e = false \/ (Z.of_nat k = mx - 1)%Z)
    /\ run (for_attempt remote mx bd w prompt (range mx)) (with_chat w obj st)
       = (match remote (n_sends st + k) with
          | Reply t => Return t
          | Fail e => Raise e
          end,
          advance (retry_notices bd k) (k + 1)
            (attempts_trace (chat_of st obj) prompt (backoff bd k))
            (with_chat w obj st)).
Proof.
  intros Hw Hmx.
  pose proof (with_chat_lookup w obj st Hw) as Hw0.
  destruct (with_chat_frame w obj st) as (Hn & _).
  destruct (for_attempt_classify mx bd w _ (chat_of st obj) prompt
              (Z.to_nat mx - 1) 0 (with_chat w obj st) Hw0 eq_refl ltac:(lia))
    as (k & Hk & Hfail & Hstop & Hloop).
  rewrite Hn in Hfail, Hstop, Hloop.
  replace (S (Z.to_nat mx - 1)) with (Z.to_nat mx) in Hloop by lia.
  rewrite attempts_trace_flat_map in Hloop. fold (range mx) in Hloop.
  exists k. split; [lia|]. split; [exact Hfail|]. split; [|exact Hloop].
  intros e He. destruct (Hstop e He); [now left | right; lia].
Qed.

(** The same for the whole block. *)
Lemma retry_block_classify (mx bd : Z) (w : loc) (obj : worker)
    (prompt : string) (st : state) :
  heap st !! w = Some obj -> (1 <= mx)%Z ->
  let st' := exec (retry_block remote markup mx bd w prompt) st in
  exists k,
    (Z.of_nat k < mx)%Z
    /\ (forall j, j < k ->
          exists e, remote (n_sends st + j) = Fail e /\ transient e = true)
    /\ (forall e, remote (n_sends st + k) = Fail e ->
          transient e = false \/ (Z.of_nat k = mx - 1)%Z)
    /\ run (for_attempt remote mx bd w prompt (range mx)) (with_chat w obj st)
       = (match remote (n_sends st + k) with
          | Reply t => Return t
          | Fail e => Raise e
          end,
          advance (retry_notices bd k) (k + 1)
            (attempts_trace (chat_of st obj) prompt (backoff bd k))
            (with_chat w obj st))
    /\ n_sends st' = n_sends st + (k + 1)
    /\ trace st' = trace st ++ chat_creation st obj
                   ++ attempts_trace (chat_of st obj) prompt (backoff bd k)
    /\ chat_log st' = chat_log st ++ retry_notices bd k
                      ++ snd (block_ending markup
                                match remote (n_sends st + k) with
                                | Reply t => Return t
                                | Fail e => Raise e
                                end)
    /\ current_worker st' = current_worker st
    /\ current_model_name st' = current_model_name st
    /\ heap st' = heap (with_chat w obj st)
    /\ next_chat st' = next_chat (with_chat w obj st).
Proof.
  intros Hw Hmx st'.
  destruct (loop_classify mx bd w obj prompt st Hw Hmx)
    as (k & Hk & Hfail & Hstop & Hloop).
  destruct (retry_block_run remote markup mx bd w obj prompt st _ _ _ _ Hw Hmx
              Hloop)
    as (Hrun & Hsends & Htrace & Hlog & Hcw & Hcm & Hheap & Hnc).
  exists k. auto 12.
Qed.

End RetryShape.

(** ** Requests under any behaviour of the service *)

Section AnyService.

Import Tui Session.
Variable settings : AppSettings.
Variable remote : nat -> outcome.
Variable markup : string -> option exn.

Lemma sleeps_of_app (a b : list event) :
  sleeps_of (a ++ b) = sleeps_of a ++ sleeps_of b.
Proof.
  induction a as [|[m c|c t|d] a IH]; cbn [app sleeps_of]; [reflexivity|..];
    now rewrite IH.
Qed.

Lemma messages_of_app (a b : list event) :
  messages_of (a ++ b) = messages_of a ++ messages_of b.
Proof.
  induction a as [|[m c|c t|d] a IH]; cbn [app messages_of]; [reflexivity|..];
    now rewrite IH.
Qed.

Lemma sleeps_of_attempts_trace (c : chat) (prompt : string) (ds : list Z) :
  sleeps_of (attempts_trace c prompt ds) = ds.
Proof. induction ds as [|d ds IH]; cbn; [reflexivity | now rewrite IH]. Qed.

Lemma messages_of_attempts_trace (c : chat) (prompt : string) (ds : list Z) :
  messages_of (attempts_trace c prompt ds) = replicate (S (length ds)) (c, prompt).
Proof. induction ds as [|d ds IH]; cbn; [reflexivity | now rewrite IH]. Qed.

Lemma sleeps_of_chat_creation (st : state) (obj : worker) :
  sleeps_of (chat_creation st obj) = [] /\ messages_of (chat_creation st obj) = [].
Proof. unfold chat_creation. now destruct (w_chat_session obj). Qed.

Lemma length_backoff (bd : Z) (k : nat) : length (backoff bd k) = k.
Proof. unfold backoff. now rewrite length_map, length_seq. Qed.

(** [process_user_request] is its first part followed by the retry block
    on the worker that part hands over. *)
Lemma process_user_request_split (prompt : string) (st : state) :
  run (process_user_request settings remote markup prompt) st
  = match run (resolve_worker settings remote prompt) st with
    | (Return p, st1) =>
        run (retry_block remote markup max_retries base_delay (fst p) prompt) st1
    | (Raise e, st1) => (Raise e, st1)
    end.
Proof. reflexivity. Qed.

(** From a state of a session, the first part hands over a worker that is
    in the store, after at most the picker's chat and question. *)
Lemma process_user_request_resolved (prompt : string) (st : state) :
  wf st ->
  exists w obj st1 pre,
    run (process_user_request settings remote markup prompt) st
      = run (retry_block remote markup max_retries base_delay w prompt) st1
    /\ heap st1 !! w = Some obj
    /\ trace st1 = trace st ++ pre
    /\ sleeps_of pre = []
    /\ n_sends st1 = n_sends st + length (messages_of pre)
    /\ length (messages_of pre) <= 1.
Proof.
  intros [Hbound _]. rewrite process_user_request_split.
  destruct (current_worker st) as [w|] eqn:Hcw.
  - destruct (Hbound w eq_refl) as (obj & c & Hw & _).
    rewrite (resolve_worker_bound settings remote prompt st w Hcw).
    exists w, obj, st, []. cbn. rewrite app_nil_r, Nat.add_0_r.
    repeat split; auto.
  - destruct (resolve_worker_unbound settings remote prompt st Hcw)
      as (obj & _ & Hres).
    rewrite Hres. cbn [fst]. eexists _, obj, _, _.
    split; [reflexivity|]. cbn.
    split; [now apply list_lookup_middle|].
    split; [reflexivity|]. split; [reflexivity|].
    split; cbn [messages_of length]; lia.
Qed.

(** What leaves the block is an error of the tag parser, if anything. *)
Lemma block_ending_raise (r : result (option string)) (e : exn) :
  fst (block_ending markup r) = Raise e ->
  exists text, Py.str_in "[" text = true /\ markup text = Some e.
Proof.
  assert (forall text e', from_markup markup text = Some e' ->
            Py.str_in "[" text = true /\ markup text = Some e') as Hfrom.
  { intros text e'. unfold from_markup.
    destruct (Py.str_in "[" text); [auto | discriminate]. }
  unfold block_ending.
  destruct r as [t|e0].
  - destruct (from_markup markup (result_line t)) as [e1|] eqn:E1;
      [|discriminate].
    destruct (from_markup markup (error_line e1)) as [e2|] eqn:E2;
      [|discriminate].
    intros [= <-]. eauto.
  - destruct (from_markup markup (error_line e0)) as [e2|] eqn:E2;
      [|discriminate].
    intros [= <-]. eauto.
Qed.

(** X1.  Whatever state the application is in and whatever the service
    does, a request ends with the status label back on WAITING and its
    inline background rule cleared, and no exception of the service leaves
    it: what leaves it, if anything does, is an error the tag parser of
    the log raised on a text with an opening bracket. *)
Theorem request_lets_out_only_markup_errors :
  forall (prompt : string) (st : state),
    let out := run (process_user_request settings remote markup prompt) st in
    model_status (snd out) = "WAITING"
    /\ status_background (snd out) = None
    /\ forall e,
         fst out = Raise e ->
         exists text, Py.str_in "[" text = true /\ markup text = Some e.
Proof.
  intros prompt st out. subst out. rewrite process_user_request_split.
  assert (exists p st1,
            run (resolve_worker settings remote prompt) st = (Return p, st1))
    as (p & st1 & ->).
  { destruct (current_worker st) as [w|] eqn:Hcw.
    - rewrite (resolve_worker_bound settings remote prompt st w Hcw). eauto.
    - destruct (resolve_worker_unbound settings remote prompt st Hcw)
        as (obj & _ & ->). eauto. }
  destruct (run (for_attempt remote max_retries base_delay (fst p) prompt
                   (range max_retries)) st1) as [r st2] eqn:Hloop.
  rewrite (retry_block_of_loop remote markup _ _ _ _ _ _ _ Hloop).
  split; [reflexivity|]. split; [reflexivity|].
  intros e He. exact (block_ending_raise r e He).
Qed.

(** X2.  A request of a session costs at least one and at most six calls
    to the service (the picker's, if the session is unbound, and up to five
    transport attempts); its waits are the first [k] of 1, 2, 4, 8 for some
    [k <= 4], so it never waits more than 15 seconds in all. *)
Theorem request_is_bounded :
  forall (prompt : string) (st : state),
    wf st ->
    let st' := exec (process_user_request settings remote markup prompt) st in
    n_sends st < n_sends st' <= n_sends st + 6
    /\ length (messages_of (new_events st st')) = n_sends st' - n_sends st
    /\ (exists k, k <= 4
                  /\ sleeps_of (new_events st st') = backoff base_delay k)
    /\ (0 <= total_sleep (new_events st st') <= 15)%Z.
Proof.
  intros prompt st Hwf st'.
  destruct (process_user_request_resolved prompt st Hwf)
    as (w & obj & st1 & pre & Heq & Hw & Htr1 & Hsl1 & Hn1 & Hlen1).
  destruct (retry_block_classify remote markup max_retries base_delay w obj prompt st1
              Hw ltac:(vm_compute; discriminate))
    as (k & Hk & _ & _ & _ & Hsends & Htrace & _).
  assert (st' = exec (retry_block remote markup max_retries base_delay w prompt) st1)
    as Hst'.
  { subst st'. unfold exec. unfold run in Heq. now rewrite Heq. }
  rewrite <- Hst' in Hsends, Htrace.
  assert (Hk4 : k <= 4) by (unfold max_retries in Hk; lia).
  rewrite Htr1, <- app_assoc in Htrace.
  rewrite (new_events_app st st' _ Htrace).
  destruct (sleeps_of_chat_creation st1 obj) as [Hsl2 Hms2].
  assert (Hsl : sleeps_of (pre ++ chat_creation st1 obj
                           ++ attempts_trace (chat_of st1 obj) prompt
                                (backoff base_delay k))
                = backoff base_delay k).
  { now rewrite !sleeps_of_app, Hsl1, Hsl2, sleeps_of_attempts_trace. }
  split; [lia|]. split.
  { rewrite !messages_of_app, Hms2, messages_of_attempts_trace, !length_app,
      length_replicate, length_backoff. cbn [length]. lia. }
  split; [exists k; auto|].
  unfold total_sleep. rewrite Hsl.
  destruct k as [|[|[|[|[|k]]]]]; [vm_compute; split; discriminate .. | lia].
Qed.

End AnyService.

(** ** More on sessions of [tui.py] *)

Section SessionFacts.

Import Tui Session.

(** X1 on a first request whose answer carries a closing tag that nothing
    opened: the tag parser refuses the line of the answer and then the
    error line that quotes it, and its error is what leaves the request;
    the status label is back on WAITING all the same. *)
Lemma request_lets_out_only_markup_errors_witness :
  let remote := scripted [Reply (Some "LIGHT")]
                  (Reply (Some "use [/b] to close")) in
  let out := run (process_user_request default_settings remote refuse_tags "hi")
               initial_state in
  model_status (snd out) = "WAITING"
  /\ status_background (snd out) = None
  /\ exists e text,
       fst out = Raise e
       /\ Py.str_in "[" text = true
       /\ refuse_tags text = Some e.
Proof.
  intros remote out.
  destruct (request_lets_out_only_markup_errors default_settings remote
              refuse_tags "hi" initial_state) as (Hstatus & Hbg & Hraise).
  split; [exact Hstatus|]. split; [exact Hbg|].
  eexists. destruct (Hraise _ eq_refl) as (text & Hin & Hrefused).
  exists text. split; [reflexivity|]. split; [exact Hin | exact Hrefused].
Defined.

(** X2, seen on a session whose first prompt meets a service that is
    overloaded throughout. *)
Lemma request_is_bounded_witness :
  let remote := scripted [] (Fail e503) in
  let st' := exec (process_user_request default_settings remote refuse_tags "hi")
               initial_state in
  n_sends st' = 6
  /\ sleeps_of (new_events initial_state st') = [1; 2; 4; 8]%Z
  /\ (0 <= total_sleep (new_events initial_state st') <= 15)%Z.
Proof.
  intros remote st'.
  destruct (request_is_bounded default_settings remote refuse_tags "hi" initial_state
              wf_initial_state) as (_ & _ & _ & Hsum).
  split; [reflexivity|]. split; [reflexivity | exact Hsum].
Defined.

(** X3.  Every run of the retry block has one shape, whatever the service
    does: some [k] below the budget of transient failures, each followed by
    its wait and its retry line, then one last attempt that decides.  The
    last attempt answers, or fails with an error that is not transient, or
    is the last one the budget allows; the loop ends with its answer or
    with its error, and the block around it adds no call and no retry
    line.  When the log takes the line of that answer or error, the block
    ends normally and the log ends with the answer and the rule, or with
    the error. *)
Theorem retry_block_any_service :
  forall (remote : nat -> outcome) (markup : string -> option exn)
         (mx bd : Z) (w : loc) (obj : worker)
         (prompt : string) (st : state),
    heap st !! w = Some obj ->
    (1 <= mx)%Z ->
    let st' := exec (retry_block remote markup mx bd w prompt) st in
    exists k,
      (Z.of_nat k < mx)%Z
      /\ (forall j, j < k ->
            exists e, remote (n_sends st + j) = Fail e /\ transient e = true)
      /\ (forall e, remote (n_sends st + k) = Fail e ->
            transient e = false \/ (Z.of_nat k = mx - 1)%Z)
      /\ (exists st1,
            run (for_attempt remote mx bd w prompt (range mx)) st
              = (match remote (n_sends st + k) with
                 | Reply t => Return t
                 | Fail e => Raise e
                 end, st1)
            /\ chat_log st1 = chat_log st ++ retry_notices bd k)
      /\ n_sends st' = n_sends st + (k + 1)
      /\ trace st' = trace st ++ chat_creation st obj
                     ++ attempts_trace (chat_of st obj) prompt (backoff bd k)
      /\ (exists tail,
            chat_log st' = chat_log st ++ retry_notices bd k ++ tail
            /\ Forall (fun entry => is_retry_line entry = false) tail)
      /\ (from_markup markup
            match remote (n_sends st + k) with
            | Reply t => result_line t
            | Fail e => error_line e
            end = None ->
          run (retry_block remote markup mx bd w prompt) st = (Return tt, st')
          /\ chat_log st' = chat_log st ++ retry_notices bd k
                            ++ match remote (n_sends st + k) with
                               | Reply t => [LogResult t; LogRule]
                               | Fail e => [LogError e]
                               end).
Proof.
  intros remote markup mx bd w obj prompt st Hw Hmx st'.
  destruct (retry_block_classify remote markup mx bd w obj prompt st Hw Hmx)
    as (k & Hk & Hfail & Hstop & Hloop & Hsends & Htrace & Hlog & _).
  destruct (for_attempt_from remote mx bd w obj prompt st _ _ _ _ Hw Hmx Hloop)
    as (st1 & Hl1 & _ & _ & Hc1).
  destruct (retry_block_run remote markup mx bd w obj prompt st _ _ _ _ Hw Hmx
              Hloop) as (Hrun & _).
  fold st' in Hrun.
  exists k. split; [exact Hk|]. split; [exact Hfail|]. split; [exact Hstop|].
  split; [exists st1; auto|]. split; [exact Hsends|]. split; [exact Htrace|].
  split.
  - eexists. split; [exact Hlog | apply block_ending_no_retry].
  - intros Hshown. unfold block_ending in Hrun, Hlog.
    destruct (remote (n_sends st + k)) as [t|e];
      rewrite Hshown in Hrun, Hlog; auto.
Qed.

(** One transient failure, then an error that is not: the second attempt
    decides, and its error is what the log ends with. *)
Lemma retry_block_any_service_witness :
  let remote := scripted [Reply (Some "HEAVY"); Reply (Some "Hello");
                          Fail e503] (Fail e401) in
  let st' := exec (retry_block remote refuse_tags max_retries base_delay 0
                     "again") bound_state in
  exists k, n_sends st' = n_sends bound_state + (k + 1)
            /\ trace st' = trace bound_state
                           ++ attempts_trace 1 "again" (backoff base_delay k)
            /\ chat_log st' = chat_log bound_state
                              ++ retry_notices base_delay k
                              ++ match remote (n_sends bound_state + k) with
                                 | Reply t => [LogResult t; LogRule]
                                 | Fail e => [LogError e]
                                 end.
Proof.
  intros remote st'.
  destruct bound_state_worker as [_ Hw].
  destruct (retry_block_any_service remote refuse_tags max_retries base_delay
              0 _ "again" bound_state Hw ltac:(vm_compute; discriminate))
    as (k & Hk & _ & _ & _ & Hsends & Htrace & _ & Hshown).
  exists k. split; [exact Hsends|]. split; [exact Htrace|].
  apply Hshown.
  destruct k as [|[|[|[|[|k]]]]]; [reflexivity .. |].
  unfold max_retries in Hk. lia.
Defined.

Lemma lstrip_nonspace (c : ascii) (s : string) :
  Py.isspace c = false -> Py.lstrip (String c s) = String c s.
Proof. intros Hc. cbn. now rewrite Hc. Qed.

Lemma rstrip_nonspace (c : ascii) (s : string) :
  Py.isspace c = false -> Py.rstrip (String c s) = String c (Py.rstrip s).
Proof. intros Hc. cbn. rewrite Hc. now destruct (Py.rstrip s). Qed.

Lemma lstrip_head (s : string) :
  Py.lstrip s = EmptyString
  \/ exists c r, Py.lstrip s = String c r /\ Py.isspace c = false.
Proof.
  induction s as [|c s IH]; cbn; [now left|].
  destruct (Py.isspace c) eqn:Hc; [exact IH | right; eauto].
Qed.

Lemma rstrip_idempotent (s : string) : Py.rstrip (Py.rstrip s) = Py.rstrip s.
Proof.
  induction s as [|c s IH]; [reflexivity|]. cbn [Py.rstrip].
  destruct (Py.rstrip s) as [|y r] eqn:E.
  - destruct (Py.isspace c) eqn:Hc; [reflexivity|]. cbn. now rewrite Hc.
  - cbn [Py.rstrip] in IH |- *. now rewrite IH.
Qed.

(** Stripping twice is stripping once. *)
Lemma strip_idempotent (s : string) : Py.strip (Py.strip s) = Py.strip s.
Proof.
  unfold Py.strip.
  assert (Py.lstrip (Py.rstrip (Py.lstrip s)) = Py.rstrip (Py.lstrip s)) as ->.
  { destruct (lstrip_head s) as [-> | (c & r & -> & Hc)]; [reflexivity|].
    rewrite (rstrip_nonspace c r Hc). now apply lstrip_nonspace. }
  apply rstrip_idempotent.
Qed.

(** X4.  White space around a submitted line does not count: the handler
    does with the line what it does with the stripped line, for every
    state and service. *)
Theorem submitted_line_is_stripped :
  forall (settings : AppSettings) (remote : nat -> outcome)
    (markup : string -> option exn) (value : string)
         (st : state),
    run (on_input_submitted settings remote markup value) st
    = run (on_input_submitted settings remote markup (Py.strip value)) st.
Proof.
  intros settings remote markup value st. unfold run, on_input_submitted.
  now rewrite strip_idempotent.
Qed.

(** The first request of a session, with the worker it binds named. *)
Lemma resolve_worker_unbound_model (settings : AppSettings)
    (remote : nat -> outcome) (prompt : string) (st : state) :
  current_worker st = None ->
  exists obj,
    w_chat_session obj = None
    /\ ((w_class obj = HighReasoningImplementation
         /\ w_model_name obj = heavy_model settings)
        \/ (w_class obj = FlashImplementation
            /\ w_model_name obj = light_model settings))
    /\ run (resolve_worker settings remote prompt) st
       = (Return (length (heap st), Some (w_model_name obj)),
          {| current_worker := Some (length (heap st));
             current_model_name := Some (w_model_name obj);
             heap := heap st ++ [obj];
             chat_log := chat_log st ++ [LogRouting; LogRoutedTo (w_model_name obj)];
             model_status := model_status st;
             status_background := status_background st;
             user_input := user_input st;
             input_focused := input_focused st;
             next_chat := S (next_chat st);
             n_sends := S (n_sends st);
             trace := trace st
                      ++ [EvCreateChat (picker_model settings) (next_chat st);
                          EvSendMessage (next_chat st) (router_prompt prompt)] |}).
Proof.
  intros Hcw.
  pose proof (route_logic_run settings remote prompt
                (snd (log_write LogRouting st))) as Hroute.
  cbv zeta in Hroute.
  match type of Hroute with
  | context [set_heap (_ ++ [?o])] => exists o
  end.
  split; [now destruct (Py.str_in _ _)|].
  split; [destruct (Py.str_in _ _); [left | right]; split; reflexivity|].
  unfold run, resolve_worker, bind at 1, gets. rewrite Hcw.
  unfold bind at 1. unfold run in Hroute.
  unfold bind at 1. cbn [log_write modify snd] in Hroute |- *.
  rewrite Hroute. cbn. now rewrite <- app_assoc.
Qed.

(** X5.  The first request of a session goes in this order: the picker's
    chat is made and asked about the prompt, the worker's chat is made on
    the routed model, and only then the prompt is sent, with the waits of
    the retry loop.  The model the log names, the one stored in the
    application and the one the worker's chat is made on are the same, and
    it is the heavy or the light model of the settings. *)
Theorem first_request_order :
  forall (settings : AppSettings) (remote : nat -> outcome)
    (markup : string -> option exn) (prompt : string)
         (st : state),
    current_worker st = None ->
    let st' := exec (process_user_request settings remote markup prompt) st in
    exists m k rest,
      k <= 4
      /\ (m = heavy_model settings \/ m = light_model settings)
      /\ new_events st st'
         = [EvCreateChat (picker_model settings) (next_chat st);
            EvSendMessage (next_chat st) (router_prompt prompt);
            EvCreateChat m (S (next_chat st))]
           ++ attempts_trace (S (next_chat st)) prompt (backoff base_delay k)
      /\ chat_log st' = chat_log st ++ [LogRouting; LogRoutedTo m] ++ rest
      /\ current_model_name st' = Some m
      /\ (w_model_name <$> heap st' !! length (heap st)) = Some m.
Proof.
  intros settings remote markup prompt st Hcw st'.
  destruct (resolve_worker_unbound_model settings remote prompt st Hcw)
    as (obj & Hnone & Hmodel & Hres).
  remember (snd (run (resolve_worker settings remote prompt) st)) as st1 eqn:E.
  rewrite Hres in E. cbn [snd] in E. rewrite <- E in Hres.
  assert (Hw1 : heap st1 !! length (heap st) = Some obj)
    by (subst st1; cbn; now apply list_lookup_middle).
  destruct (retry_block_classify remote markup max_retries base_delay
              (length (heap st)) obj prompt st1 Hw1
              ltac:(vm_compute; discriminate))
    as (k & Hk & _ & _ & _ & _ & Htrace & Hlog & _ & Hcm & Hheap & _).
  assert (st' = exec (retry_block remote markup max_retries base_delay
                        (length (heap st)) prompt) st1) as Hst'.
  { pose proof (process_user_request_split settings remote markup prompt st) as Hs.
    unfold run in Hs, Hres. rewrite Hres in Hs. cbn [fst] in Hs.
    subst st'. unfold exec. now rewrite Hs. }
  rewrite <- Hst' in Htrace, Hlog, Hcm, Hheap.
  unfold chat_creation, chat_of in Htrace. rewrite Hnone in Htrace.
  exists (w_model_name obj), k. eexists.
  split; [unfold max_retries in Hk; lia|].
  split; [destruct Hmodel as [[_ H] | [_ H]]; auto|].
  split.
  { apply new_events_app. rewrite Htrace. subst st1. cbn.
    now rewrite <- !app_assoc. }
  split; [rewrite Hlog; subst st1; cbn; rewrite <- !app_assoc; reflexivity|].
  split; [rewrite Hcm; now subst st1|].
  rewrite Hheap. unfold with_chat. rewrite Hnone. cbn [heap set_heap].
  rewrite list_lookup_insert_eq by (eapply lookup_lt_Some, Hw1).
  reflexivity.
Qed.

(** The first prompt of the application, answered at once by a picker that
    says LIGHT. *)
Lemma first_request_order_witness :
  let remote := scripted [Reply (Some "LIGHT")] (Reply (Some "Hello")) in
  let st' := exec (process_user_request default_settings remote refuse_tags "hi")
               initial_state in
  exists m k rest,
    new_events initial_state st'
    = [EvCreateChat (picker_model default_settings) 0;
       EvSendMessage 0 (router_prompt "hi"); EvCreateChat m 1]
      ++ attempts_trace 1 "hi" (backoff base_delay k)
    /\ chat_log st' = chat_log initial_state
                      ++ [LogRouting; LogRoutedTo m] ++ rest
    /\ current_model_name st' = Some m.
Proof.
  intros remote st'.
  destruct (first_request_order default_settings remote refuse_tags "hi" initial_state
              eq_refl) as (m & k & rest & _ & _ & Hev & Hlog & Hcm & _).
  exists m, k, rest. repeat split; assumption.
Defined.

(** X6.  A request of a session never changes a worker object that is in
    the store: the store after it is the store before it, with one new
    object at the end when the session was unbound and none otherwise; chat
    handles are only ever handed out upwards. *)
Theorem request_keeps_store :
  forall (settings : AppSettings) (remote : nat -> outcome)
    (markup : string -> option exn) (prompt : string)
         (st : state),
    wf st ->
    let st' := exec (process_user_request settings remote markup prompt) st in
    heap st `prefix_of` heap st'
    /\ length (heap st')
       = length (heap st) + match current_worker st with
                            | None => 1
                            | Some _ => 0
                            end
    /\ next_chat st <= next_chat st'.
Proof.
  intros settings remote markup prompt st [Hbound _] st'.
  destruct (current_worker st) as [w|] eqn:Hcw.
  - destruct (Hbound w eq_refl) as (obj & c & Hw & Hc).
    destruct (process_user_request_bound settings remote markup prompt st w obj c
                Hcw Hw Hc)
      as (r & notes & n & evs & _ & _ & _ & _ & _ & _ & _ & Hheap & Hnc).
    fold st' in Hheap, Hnc. rewrite Hheap, Hnc.
    split; [reflexivity|]. split; lia.
  - destruct (process_user_request_unbound settings remote markup prompt st Hcw)
      as (obj & evs & _ & _ & _ & _ & _ & Hheap & _ & Hnc).
    fold st' in Hheap, Hnc. rewrite Hheap, Hnc, length_app.
    split; [now apply prefix_app_r|]. split; cbn; lia.
Qed.

(** A second prompt on the sample bound session. *)
Lemma request_keeps_store_witness :
  let remote := scripted [] (Fail e401) in
  let st' := exec (process_user_request default_settings remote refuse_tags "again")
               bound_state in
  heap bound_state `prefix_of` heap st'
  /\ length (heap st') = 1.
Proof.
  intros remote st'.
  destruct (request_keeps_store default_settings remote refuse_tags "again" bound_state
              wf_bound_state) as (Hpre & Hlen & _).
  split; [exact Hpre | exact Hlen].
Defined.

(** X7.  After [action_new_session], which itself calls nothing, the next
    request sends no message on a chat session that a worker of the store
    held before, and leaves those workers as they were. *)
Theorem reset_isolates_old_chats :
  forall (settings : AppSettings) (remote : nat -> outcome)
    (markup : string -> option exn) (prompt : string)
         (st : state),
    wf st ->
    let st0 := exec action_new_session st in
    let st1 := exec (process_user_request settings remote markup prompt) st0 in
    new_events st st0 = []
    /\ heap st `prefix_of` heap st1
    /\ forall c text,
         EvSendMessage c text ∈ new_events st0 st1 ->
         next_chat st <= c
         /\ forall w obj c0,
              heap st !! w = Some obj -> w_chat_session obj = Some c0 ->
              c <> c0.
Proof.
  intros settings remote markup prompt st [_ Hchats] st0 st1.
  assert (Hcw0 : current_worker st0 = None) by reflexivity.
  destruct (process_user_request_unbound settings remote markup prompt st0 Hcw0)
    as (obj & evs & _ & Htrace & Hevs & _ & _ & Hheap & _).
  fold st1 in Htrace, Hheap.
  change (heap st0) with (heap st) in Hheap.
  change (next_chat st0) with (next_chat st) in Htrace, Hevs.
  split; [apply new_events_app; cbn; now rewrite app_nil_r|].
  split; [rewrite Hheap; now apply prefix_app_r|].
  intros c text Hin. rewrite (new_events_app st0 st1 _ Htrace) in Hin.
  assert (Hc : next_chat st <= c).
  { apply elem_of_app in Hin as [Hin | Hin].
    - repeat (apply elem_of_cons in Hin as [Hin | Hin];
              [try discriminate; injection Hin as -> _; lia|]).
      now apply elem_of_nil in Hin.
    - rewrite Forall_forall in Hevs.
      destruct (Hevs _ Hin) as [H | [d H]]; [|discriminate].
      injection H as -> _. lia. }
  split; [exact Hc|].
  intros w obj0 c0 Hw0 Hc0. pose proof (Hchats w obj0 c0 Hw0 Hc0). lia.
Qed.

(** A reset of the sample bound session, then a prompt. *)
Lemma reset_isolates_old_chats_witness :
  let remote := scripted [Reply (Some "HEAVY"); Reply (Some "Hello")]
                  (Reply (Some "LIGHT")) in
  let st0 := exec action_new_session bound_state in
  let st1 := exec (process_user_request default_settings remote refuse_tags "hi") st0 in
  heap bound_state `prefix_of` heap st1
  /\ forall c text,
       EvSendMessage c text ∈ new_events st0 st1 -> c <> 1.
Proof.
  intros remote st0 st1.
  destruct (reset_isolates_old_chats default_settings remote refuse_tags "hi" bound_state
              wf_bound_state) as (_ & Hpre & Hiso).
  split; [exact Hpre|].
  intros c text Hin. destruct (Hiso c text Hin) as [_ Hne].
  destruct bound_state_worker as [_ Hw]. exact (Hne 0 _ 1 Hw eq_refl).
Defined.

(** Prompts on a bound session, one after the other: each is sent between
    one and five times on the session's chat, in the order of the prompts,
    and nothing else is sent. *)
Lemma handle_all_bound (settings : AppSettings) (remote : nat -> outcome)
    (markup : string -> option exn)
    (w : loc) (obj : worker) (c : chat) :
  forall (prompts : list string) (st : state),
    current_worker st = Some w ->
    heap st !! w = Some obj -> w_chat_session obj = Some c ->
    exists counts evs st',
      run (handle_all settings remote markup prompts) st = (Return tt, st')
      /\ length counts = length prompts
      /\ Forall (fun n => 1 <= n <= 5) counts
      /\ trace st' = trace st ++ evs
      /\ messages_of evs
         = concat (zip_with (fun p n => replicate n (c, p)) prompts counts)
      /\ current_worker st' = Some w
      /\ current_model_name st' = current_model_name st
      /\ heap st' = heap st
      /\ next_chat st' = next_chat st.
Proof.
  induction prompts as [|p prompts IH]; intros st Hcw Hw Hc.
  - exists [], [], st. cbn. rewrite app_nil_r. repeat split; auto.
  - pose proof (process_user_request_split settings remote markup p st) as Hsplit.
    rewrite (resolve_worker_bound settings remote p st w Hcw) in Hsplit.
    cbn [fst] in Hsplit.
    destruct (retry_block_classify remote markup max_retries base_delay w obj p st
                Hw ltac:(vm_compute; discriminate))
      as (k & Hk & _ & _ & _ & _ & Htrace & _ & Hcw1 & Hcm1 & Hheap1 & Hnc1).
    set (st1 := exec (retry_block remote markup max_retries base_delay w p) st) in *.
    assert (work (process_user_request settings remote markup p) st
            = (Return tt, st1)) as Hrun.
    { rewrite work_run. subst st1. unfold exec, run in *. now rewrite Hsplit. }
    unfold chat_creation, chat_of in Htrace. rewrite Hc in Htrace.
    unfold with_chat in Hheap1, Hnc1. rewrite Hc in Hheap1, Hnc1.
    rewrite Hcw in Hcw1.
    destruct (IH st1 Hcw1 ltac:(now rewrite Hheap1) Hc)
      as (counts & evs & st' & Hrest & Hlen & Hcounts & Htr & Hmsg & Hcw'
          & Hcm' & Hheap' & Hnc').
    exists (S k :: counts),
           (attempts_trace c p (backoff base_delay k) ++ evs), st'.
    split.
    { unfold run in *. cbn [handle_all]. unfold bind. now rewrite Hrun. }
    split; [cbn; now rewrite Hlen|].
    split; [constructor; [unfold max_retries in Hk; lia | exact Hcounts]|].
    split; [rewrite Htr, Htrace; cbn [app]; now rewrite <- app_assoc|].
    split.
    { rewrite messages_of_app, messages_of_attempts_trace, length_backoff, Hmsg.
      reflexivity. }
    split; [exact Hcw'|]. split; [congruence|]. split; congruence.
Qed.

(** X8.  However many prompts follow each other on a bound session, and
    whatever the service does and whatever the log makes of the lines
    written to it, the binding stays: no classifier call, no new chat, no
    new worker; every prompt goes out on the session's chat, between one
    and five times, in the order the prompts were given. *)
Theorem bound_session_stays_on_its_chat :
  forall (settings : AppSettings) (remote : nat -> outcome)
    (markup : string -> option exn)
         (prompts : list string) (st : state) (w : loc) (obj : worker)
         (c : chat),
    current_worker st = Some w ->
    heap st !! w = Some obj ->
    w_chat_session obj = Some c ->
    let st' := exec (handle_all settings remote markup prompts) st in
    (exists counts,
       length counts = length prompts
       /\ Forall (fun n => 1 <= n <= 5) counts
       /\ messages_of (new_events st st')
          = concat (zip_with (fun p n => replicate n (c, p)) prompts counts))
    /\ current_worker st' = Some w
    /\ heap st' = heap st
    /\ next_chat st' = next_chat st.
Proof.
  intros settings remote markup prompts st w obj c Hcw Hw Hc st'.
  destruct (handle_all_bound settings remote markup w obj c prompts st Hcw Hw Hc)
    as (counts & evs & st2 & Hrun & Hlen & Hcounts & Htr & Hmsg & Hcw'
        & _ & Hheap' & Hnc').
  assert (st' = st2) as -> by (subst st'; unfold exec, run in *; now rewrite Hrun).
  split; [|auto].
  exists counts. rewrite (new_events_app st st2 evs Htr). auto.
Qed.

(** Three prompts on the sample bound session; the second meets one
    overloaded answer. *)
Lemma bound_session_stays_on_its_chat_witness :
  let remote := scripted [Reply (Some "HEAVY"); Reply (Some "Hello");
                          Reply (Some "one"); Fail e503; Reply (Some "two")]
                  (Reply (Some "three")) in
  let st' := exec (handle_all default_settings remote refuse_tags ["a"; "b"; "c"])
               bound_state in
  messages_of (new_events bound_state st')
    = [(1, "a"); (1, "b"); (1, "b"); (1, "c")]
  /\ current_worker st' = Some 0
  /\ heap st' = heap bound_state.
Proof.
  intros remote st'.
  destruct bound_state_worker as [Hcw Hw].
  destruct (bound_session_stays_on_its_chat default_settings remote refuse_tags
              ["a"; "b"; "c"] bound_state 0 _ 1 Hcw Hw eq_refl)
    as (_ & Hcw' & Hheap & _).
  split; [reflexivity|]. split; [exact Hcw' | exact Hheap].
Defined.

End SessionFacts.

(** ** The [RouterTUI] application of [app.py] *)

Section RouterFacts.

Variable Client : Type.
Variable client : Client.
Variable settings : App.AppSettings.
Variable remote : nat -> Tui.outcome.
Variable clock : nat -> string.

(** The model a line of text is sent to. *)
Lemma router_request_calls (user_text : string) (st : Router.ui) :
  Router.calls (Router.handle_llm_request Client client settings remote clock
                  user_text st)
  = Router.calls st
    ++ [(if Py.len user_text <? 100 then App.light_model settings
         else App.heavy_model settings, user_text)].
Proof.
  unfold Router.handle_llm_request, Router.process_task, App.route_logic.
  destruct (Py.len user_text <? 100); cbn;
    now destruct (remote (length (Router.calls st))).
Qed.

(** X9.  [app.py] keeps no binding and filters nothing: for lines submitted
    one after the other, the calls made are one per line, in order, each
    with the line as typed (blank lines too) and each routed by the length
    of that line alone; a failed call is not tried again. *)
Theorem router_one_call_per_line :
  forall (values : list string) (st : Router.ui),
    Router.calls (Router.submit_all Client client settings remote clock values st)
    = Router.calls st
      ++ map (fun value =>
                (if Py.len value <? 100 then App.light_model settings
                 else App.heavy_model settings, value)) values.
Proof.
  induction values as [|value values IH]; intros st.
  - cbn. now rewrite app_nil_r.
  - cbn [Router.submit_all fold_left map].
    change (fold_left _ values ?s)
      with (Router.submit_all Client client settings remote clock values s).
    rewrite IH. unfold Router.on_input_submitted.
    rewrite router_request_calls, <- app_assoc. reflexivity.
Qed.

(** A request written out: its result only reads the calls made so far. *)
Lemma router_request_eq (user_text : string) (st : Router.ui) :
  Router.handle_llm_request Client client settings remote clock user_text st
  = {| Router.md_viewer :=
         match remote (length (Router.calls st)) with
         | Tui.Reply raw_response =>
             Router.DocResponse
               (if Py.len user_text <? 100 then "Gemini Flash (Fast)"
                else "Gemini Pro (Reasoning)")
               (clock (length (Router.calls st))) raw_response user_text
         | Tui.Fail e => Router.DocError (Tui.str e)
         end;
       Router.user_input := "";
       Router.calls :=
         Router.calls st
         ++ [(if Py.len user_text <? 100 then App.light_model settings
              else App.heavy_model settings, user_text)] |}.
Proof.
  unfold Router.handle_llm_request, Router.process_task, App.route_logic.
  destruct (Py.len user_text <? 100); cbn;
    now destruct (remote (length (Router.calls st))).
Qed.

(** X10.  What a request shows does not depend on what the viewer or the
    input box held before, only on the calls made so far: the box ends
    empty, and the viewer shows the answer under the label of the routed
    tier, or the text of the error when the call fails. *)
Theorem router_request_outcome :
  forall (user_text : string) (st : Router.ui),
    let st' := Router.handle_llm_request Client client settings remote clock
                 user_text st in
    Router.user_input st' = ""
    /\ Router.md_viewer st'
       = match remote (length (Router.calls st)) with
         | Tui.Reply raw_response =>
             Router.DocResponse
               (if Py.len user_text <? 100 then "Gemini Flash (Fast)"
                else "Gemini Pro (Reasoning)")
               (clock (length (Router.calls st))) raw_response user_text
         | Tui.Fail e => Router.DocError (Tui.str e)
         end
    /\ (forall st2,
          Router.calls st2 = Router.calls st ->
          Router.handle_llm_request Client client settings remote clock
            user_text st2 = st')
    /\ Router.handle_llm_request Client client settings remote clock user_text
         (Router.action_clear st) = st'.
Proof.
  intros user_text st st'. subst st'. rewrite (router_request_eq user_text st).
  split; [reflexivity|]. split; [reflexivity|]. split.
  - intros st2 H2. now rewrite router_request_eq, H2.
  - now rewrite router_request_eq.
Qed.

(** X11.  A prompt given on the command line is handled as the same line
    typed into the input box; without a prompt, or with an empty one,
    [on_mount] does nothing. *)
Theorem router_on_mount :
  forall (st : Router.ui),
    Router.on_mount Client client settings remote clock None st = st
    /\ Router.on_mount Client client settings remote clock (Some "") st = st
    /\ forall prompt,
         prompt <> "" ->
         Router.on_mount Client client settings remote clock (Some prompt) st
         = Router.on_input_submitted Client client settings remote clock
             prompt st.
Proof.
  intros st. split; [reflexivity|]. split; [reflexivity|].
  intros prompt Hne. unfold Router.on_mount, Router.on_input_submitted.
  destruct prompt as [|c prompt]; [contradiction|]. cbn [Py.is_empty].
  now rewrite !router_request_eq.
Qed.

End RouterFacts.

Section RouterRuns.

(** X10 on a first request that fails, after the viewer was cleared. *)
Lemma router_request_outcome_witness :
  let remote := Tui.scripted [] (Tui.Fail Tui.e503) in
  let clock := fun _ : nat => "12:00:00" in
  let st' := Router.handle_llm_request unit tt Router.default_settings remote
               clock "hi" Router.initial_ui in
  Router.md_viewer st' = Router.DocError "503 UNAVAILABLE"
  /\ Router.handle_llm_request unit tt Router.default_settings remote clock "hi"
       (Router.action_clear Router.initial_ui) = st'.
Proof.
  intros remote clock st'.
  destruct (router_request_outcome unit tt Router.default_settings remote clock
              "hi" Router.initial_ui) as (_ & Hview & Hsame & _).
  split; [exact Hview|].
  apply Hsame. reflexivity.
Defined.

(** X11 on the prompt "hi". *)
Lemma router_on_mount_witness :
  let remote := Tui.scripted [] (Tui.Reply (Some "Hello")) in
  let clock := fun _ : nat => "12:00:00" in
  Router.on_mount unit tt Router.default_settings remote clock (Some "hi")
    Router.initial_ui
  = Router.on_input_submitted unit tt Router.default_settings remote clock "hi"
      Router.initial_ui.
Proof.
  intros remote clock.
  apply (router_on_mount unit tt Router.default_settings remote clock
           Router.initial_ui).
  discriminate.
Defined.

End RouterRuns.

(** ** The command of [main.py] *)

Section MainCliFacts.

Variable Client : Type.
Variable client : Client.
Variable settings : Main.AppSettings.
Variable remote : nat -> Tui.outcome.
Variable now : string.

(** X12.  The command makes one call, on the very model its second line
    names, heavy for a prompt of more than 20 characters and light
    otherwise.  When the call answers, the result is the third and last
    line; when it fails, the command ends with the service's own exception,
    without a result line and without a second attempt. *)
Theorem cli_one_call_then_result_or_crash :
  forall (prompt : string) (w : MainCli.world),
    let model :=
      if 20 <? Py.len prompt then Main.heavy_model settings
      else Main.light_model settings in
    let out := MainCli.cli Client client settings remote now prompt w in
    MainCli.calls (snd out) = MainCli.calls w ++ [(model, prompt)]
    /\ match remote (length (MainCli.calls w)) with
       | Tui.Reply result =>
           fst out = MainCli.Finished
           /\ MainCli.stdout (snd out)
              = MainCli.stdout w
                ++ [MainCli.LineRunning now; MainCli.LineSelected model;
                    MainCli.LineResult result]
       | Tui.Fail e =>
           fst out = MainCli.Crashed e
           /\ MainCli.stdout (snd out)
              = MainCli.stdout w
                ++ [MainCli.LineRunning now; MainCli.LineSelected model]
       end.
Proof.
  intros prompt w model out. subst model out.
  unfold MainCli.cli, MainCli.process_task, Main.route_logic.
  destruct (20 <? Py.len prompt); cbn;
    destruct (remote (length (MainCli.calls w))); cbn;
    rewrite <- ?app_assoc; repeat split; reflexivity.
Qed.

End MainCliFacts.

(** ** The word-count heuristic of [scaffold.py] *)

Section ScaffoldFacts.

(** Two words need a character each and one between them. *)
Lemma split_go_bound (s cur : string) :
  2 * length (Scaffold.split_go cur s)
  <= String.length s + 1 + (if Py.is_empty cur then 0 else 1).
Proof.
  revert cur. induction s as [|c s IH]; intros cur.
  - cbn. destruct (Py.is_empty cur); cbn; lia.
  - cbn [Scaffold.split_go String.length].
    destruct (Py.isspace c).
    + pose proof (IH EmptyString) as H. cbn [Py.is_empty] in H.
      destruct (Py.is_empty cur); cbn [length]; lia.
    + pose proof (IH (cur +:+ String c EmptyString)) as H.
      assert (Py.is_empty (cur +:+ String c EmptyString) = false) as E
        by now destruct cur.
      rewrite E in H. destruct (Py.is_empty cur); lia.
Qed.

Lemma split_go_all_space (s : string) :
  Tui.all_space s = true -> Scaffold.split_go EmptyString s = [].
Proof.
  induction s as [|c s IH]; [reflexivity|]. cbn.
  intros [Hc Hs]%andb_true_iff. rewrite Hc. auto.
Qed.

(** X13.  A text without a question mark is light whenever it has at most
    100 characters, and whenever it is blank, however long; a question mark
    anywhere makes a text heavy.  [orchestrator_loop] sends the text,
    unchanged, to fast-gen in the first two cases and to smart-gen in the
    third. *)
Theorem heuristic_check_by_length_and_mark :
  forall (Answer : Type) (call_external_api : string -> string -> Answer)
         (text : string),
    (Py.len text <= 100 -> Py.str_in "?" text = false ->
       Scaffold.heuristic_check text = false
       /\ Scaffold.orchestrator_loop Answer call_external_api text
          = call_external_api "fast-gen" text)
    /\ (Tui.all_space text = true -> Py.str_in "?" text = false ->
          Scaffold.heuristic_check text = false
          /\ Scaffold.orchestrator_loop Answer call_external_api text
             = call_external_api "fast-gen" text)
    /\ (Py.str_in "?" text = true ->
          Scaffold.heuristic_check text = true
          /\ Scaffold.orchestrator_loop Answer call_external_api text
             = call_external_api "smart-gen" text).
Proof.
  intros Answer call_external_api text.
  unfold Scaffold.orchestrator_loop, Scaffold.heuristic_check, Scaffold.split.
  split; [|split].
  - intros Hlen Hq. pose proof (split_go_bound text EmptyString) as H.
    cbn [Py.is_empty] in H. unfold Py.len in Hlen. rewrite Hq.
    destruct (Nat.ltb_spec 50 (length (Scaffold.split_go EmptyString text)));
      [lia|]. now split.
  - intros Hblank Hq. rewrite (split_go_all_space text Hblank), Hq. now split.
  - intros Hq. rewrite Hq, orb_true_r. now split.
Qed.

(** A greeting, a blank line of 120 characters, a question; and 51 words in
    101 characters, which is heavy: the bound of 100 cannot be raised. *)
Lemma heuristic_check_by_length_and_mark_witness :
  Scaffold.heuristic_check "hello there" = false
  /\ Scaffold.heuristic_check (Py.repeat " " 120) = false
  /\ Scaffold.heuristic_check "why?" = true
  /\ Py.len ("a" +:+ Py.repeat " a" 50) = 101
  /\ Scaffold.heuristic_check ("a" +:+ Py.repeat " a" 50) = true.
Proof.
  pose (api := fun model content : string => (model, content)).
  destruct (heuristic_check_by_length_and_mark _ api "hello there")
    as (Hshort & _ & _).
  destruct (heuristic_check_by_length_and_mark _ api (Py.repeat " " 120))
    as (_ & Hblank & _).
  destruct (heuristic_check_by_length_and_mark _ api "why?") as (_ & _ & Hmark).
  split; [apply Hshort; [vm_compute; lia | reflexivity]|].
  split; [apply Hblank; reflexivity|].
  split; [apply Hmark; reflexivity|].
  split; reflexivity.
Defined.

End ScaffoldFacts.

(** ** The counters of [mini-cli.py] *)

Section MiniCliFacts.

Lemma counter_up_loop_spec (iterations : list Z) :
  forall (number : Z) (out : MiniCli.task_log),
    MiniCli.counter_up_loop iterations number out
    = ((number + Z.of_nat (length iterations))%Z,
       {| MiniCli.printed :=
            MiniCli.printed out
            ++ map (fun i => (number + Z.of_nat i)%Z)
                 (seq 1 (length iterations));
          MiniCli.naps := MiniCli.naps out + length iterations |}).
Proof.
  induction iterations as [|i iterations IH]; intros number out.
  - cbn. rewrite app_nil_r, Z.add_0_r, Nat.add_0_r. now destruct out.
  - cbn [MiniCli.counter_up_loop length seq map]. rewrite IH.
    cbn [MiniCli.printed MiniCli.naps]. rewrite <- app_assoc. cbn [app].
    assert (map (fun j => (number + Z.of_nat j)%Z) (seq 2 (length iterations))
            = map (fun j => (number + 1 + Z.of_nat j)%Z)
                (seq 1 (length iterations))) as ->.
    { rewrite <- seq_shift, map_map. apply map_ext. intros j. lia. }
    replace (number + Z.of_nat (S (length iterations)))%Z
      with (number + 1 + Z.of_nat (length iterations))%Z by lia.
    replace (MiniCli.naps out + S (length iterations))
      with (S (MiniCli.naps out) + length iterations) by lia.
    reflexivity.
Qed.

Lemma counter_down_loop_spec (iterations : list Z) :
  forall (number : Z) (out : MiniCli.task_log),
    MiniCli.counter_down_loop iterations number out
    = ((number - Z.of_nat (length iterations))%Z,
       {| MiniCli.printed :=
            MiniCli.printed out
            ++ map (fun i => (number - Z.of_nat i)%Z)
                 (seq 1 (length iterations));
          MiniCli.naps := MiniCli.naps out + length iterations |}).
Proof.
  induction iterations as [|i iterations IH]; intros number out.
  - cbn. rewrite app_nil_r, Z.sub_0_r, Nat.add_0_r. now destruct out.
  - cbn [MiniCli.counter_down_loop length seq map]. rewrite IH.
    cbn [MiniCli.printed MiniCli.naps]. rewrite <- app_assoc. cbn [app].
    assert (map (fun j => (number - Z.of_nat j)%Z) (seq 2 (length iterations))
            = map (fun j => (number - 1 - Z.of_nat j)%Z)
                (seq 1 (length iterations))) as ->.
    { rewrite <- seq_shift, map_map. apply map_ext. intros j. lia. }
    replace (number - Z.of_nat (S (length iterations)))%Z
      with (number - 1 - Z.of_nat (length iterations))%Z by lia.
    replace (MiniCli.naps out + S (length iterations))
      with (S (MiniCli.naps out) + length iterations) by lia.
    reflexivity.
Qed.

(** X14.  For every start value, [counting_logic] hands back the value plus
    ten and the value minus ten, in that order; the one counter prints the
    ten numbers above the start value going up, the other the ten below
    going down, each sleeping ten times; and counting down from where
    counting up ended gives the start value back. *)
Theorem counting_logic_results :
  forall (number : Z),
    fst (MiniCli.counting_logic number) = [(number + 10)%Z; (number - 10)%Z]
    /\ MiniCli.printed (snd (MiniCli.counter_up number))
       = map (fun i => (number + Z.of_nat i)%Z) (seq 1 10)
    /\ MiniCli.printed (snd (MiniCli.counter_down number))
       = map (fun i => (number - Z.of_nat i)%Z) (seq 1 10)
    /\ MiniCli.naps (snd (MiniCli.counter_up number)) = 10
    /\ MiniCli.naps (snd (MiniCli.counter_down number)) = 10
    /\ fst (MiniCli.counter_down (fst (MiniCli.counter_up number))) = number.
Proof.
  intros number.
  unfold MiniCli.counting_logic, MiniCli.counter_up, MiniCli.counter_down.
  rewrite !counter_up_loop_spec, !counter_down_loop_spec.
  cbn [fst snd MiniCli.printed MiniCli.naps MiniCli.no_log app].
  change (length (Tui.range 10)) with 10.
  repeat split; try reflexivity; f_equal; lia.
Qed.

End MiniCliFacts.

(** ** What every state of a session satisfies *)

Section SessionInvariant.

Import Tui Session.
Variable settings : AppSettings.
Variable remote : nat -> outcome.
Variable markup : string -> option exn.

Lemma consistent_process_user_request (prompt : string) (st : state) :
  wf st -> consistent settings st ->
  consistent settings (exec (process_user_request settings remote markup prompt) st).
Proof.
  intros [Hbound _] [Hn Hcur].
  pose proof (process_user_request_split settings remote markup prompt st) as Hsplit.
  destruct (current_worker st) as [w|] eqn:Hcw.
  - destruct Hcur as (obj & Hw & Hcm & Hmodel).
    destruct (Hbound w eq_refl) as (obj' & c & Hw' & Hc).
    rewrite Hw in Hw'. injection Hw' as <-.
    rewrite (resolve_worker_bound settings remote prompt st w Hcw) in Hsplit.
    cbn [fst] in Hsplit.
    destruct (retry_block_classify remote markup max_retries base_delay w obj prompt
                st Hw ltac:(vm_compute; discriminate))
      as (k & _ & _ & _ & _ & Hsends & Htrace & _ & Hcw' & Hcm' & Hheap & _).
    unfold exec. unfold run in Hsplit. rewrite Hsplit.
    unfold exec in Hsends, Htrace, Hcw', Hcm', Hheap.
    unfold chat_creation in Htrace. unfold with_chat in Hheap.
    rewrite Hc in Htrace, Hheap. split.
    + rewrite Hsends, Htrace, !messages_of_app, messages_of_attempts_trace,
        !length_app, length_replicate, length_backoff.
      cbn [messages_of length]. lia.
    + rewrite Hcw', Hcw. exists obj. rewrite Hheap, Hcm'. auto.
  - destruct (resolve_worker_unbound_model settings remote prompt st Hcw)
      as (obj & Hnone & Hmodel & Hres).
    remember (snd (run (resolve_worker settings remote prompt) st)) as st1 eqn:E.
    rewrite Hres in E. cbn [snd] in E. rewrite <- E in Hres.
    rewrite Hres in Hsplit. cbn [fst] in Hsplit.
    assert (Hw1 : heap st1 !! length (heap st) = Some obj)
      by (subst st1; cbn; now apply list_lookup_middle).
    destruct (retry_block_classify remote markup max_retries base_delay
                (length (heap st)) obj prompt st1 Hw1
                ltac:(vm_compute; discriminate))
      as (k & _ & _ & _ & _ & Hsends & Htrace & _ & Hcw' & Hcm' & Hheap & _).
    unfold exec. unfold run in Hsplit. rewrite Hsplit.
    unfold exec in Hsends, Htrace, Hcw', Hcm', Hheap.
    unfold chat_creation in Htrace. unfold with_chat in Hheap.
    rewrite Hnone in Htrace, Hheap. split.
    + rewrite Hsends, Htrace, !messages_of_app, messages_of_attempts_trace,
        !length_app, length_replicate, length_backoff.
      subst st1. cbn [n_sends trace messages_of length].
      rewrite messages_of_app, length_app. cbn [messages_of length]. lia.
    + rewrite Hcw'. replace (current_worker st1) with (Some (length (heap st)))
        by now subst st1.
      exists (with_session st1 obj). rewrite Hheap, Hcm'. cbn [heap set_heap].
      split; [apply list_lookup_insert_eq; eapply lookup_lt_Some, Hw1|].
      split; [now subst st1 | exact Hmodel].
Qed.

(** X15.  In every state a session reaches from the start by submitted
    lines and new-session keys, whatever the service does: a bound session
    has its worker in the store with a chat session; every chat session in
    the store was handed out by the service; the model name the application
    keeps is the model of the bound worker, heavy for the reasoning class
    and light for the flash class, and is absent on an unbound session;
    and the count of answered calls is the count of messages sent. *)
Theorem session_invariant :
  forall (st : state),
    reachable settings remote markup st ->
    wf st /\ consistent settings st.
Proof.
  induction 1 as [|value st Hreach [Hwf Hcons]|st Hreach [Hwf Hcons]].
  - split; [exact wf_initial_state|]. split; reflexivity.
  - split; [now apply wf_on_input_submitted|].
    unfold exec, on_input_submitted.
    destruct (Py.is_empty (Py.strip value)); [exact Hcons|].
    unfold bind at 1. cbn [modify]. unfold bind at 1.
    rewrite log_write_run, work_run. cbn [snd].
    apply (consistent_process_user_request (Py.strip value)).
    + exact Hwf.
    + destruct Hcons as [Hn Hcur]. split; [|exact Hcur].
      cbn. now rewrite app_nil_r, Nat.add_0_r.
  - split; [now apply wf_action_new_session|].
    destruct Hcons as [Hn _]. split; [exact Hn | reflexivity].
Qed.

End SessionInvariant.

Section SessionInvariantRuns.

Import Tui Session.

(** X15 on a session of two lines with a reset between them. *)
Lemma session_invariant_witness :
  let remote := scripted [Reply (Some "LIGHT"); Fail e503] (Reply (Some "ok")) in
  let st := exec (on_input_submitted default_settings remote refuse_tags " again ")
              (exec action_new_session
                 (exec (on_input_submitted default_settings remote refuse_tags "hi")
                    initial_state)) in
  wf st /\ consistent default_settings st.
Proof.
  intros remote st.
  apply (session_invariant default_settings remote refuse_tags st).
  apply reach_submit, reach_new_session, reach_submit, reach_start.
Defined.

End SessionInvariantRuns.
